(** * chaosblade-exec-cri: the CRI-O runtime client

    A shallow embedding of [exec/container/crio/crio.go] and
    [exec/container/cri-o/crio-linux.go], and the properties of the
    client that follow from the code.

    Conventions of the embedding.
    - A Go pointer that the code dereferences is an [option]; [None] is
      the nil pointer and dereferencing it panics.
    - A Go map that may be nil is an [option (gmap K V)]; reading a nil
      map behaves as reading an empty one, as in Go.
    - A Go [error] is an [option error]; [None] is the nil error.
    - The remote runtime, gRPC, the host's processes and files are
      collaborators reached through interfaces; they are records of
      functions over a world state [W], and every call through them is
      logged in a trace. *)

From stdpp Require Import base strings gmap list pretty.

Local Open Scope string_scope.
Local Open Scope list_scope.
Set Warnings "-register-all".

(** ** Go values shared by both files *)

(** The dynamic values of Go's [error] interface that this code builds or
    compares against. *)
Inductive error : Type :=
| errorString (s : string)               (* errors.New, fmt.Errorf without %w *)
| wrapError (msg : string) (err : error) (* fmt.Errorf with %w *)
| DeadlineExceeded                       (* context.DeadlineExceeded *)
| Canceled.                              (* context.Canceled *)

#[global] Instance error_eq_dec : EqDecision error.
Proof. solve_decision. Defined.

(** [err.Error()] *)
Definition Error (e : error) : string :=
  match e with
  | errorString s => s
  | wrapError msg _ => msg
  | DeadlineExceeded => "context deadline exceeded"
  | Canceled => "context canceled"
  end.

(** [errors.Unwrap] *)
Definition Unwrap (e : error) : option error :=
  match e with
  | wrapError _ inner => Some inner
  | _ => None
  end.

(** The [%v] verb of package fmt applied to an [error] operand. *)
Definition fmt_v (e : option error) : string :=
  match e with
  | Some e => Error e
  | None => "<nil>"
  end.

Definition errors_New (s : string) : error := errorString s.

(** What a goroutine that panics carries. *)
Inductive PanicValue : Type :=
| NilDereference                          (* invalid memory address or nil pointer dereference *)
| InterfaceConversion (dynamic : string). (* interface conversion: interface {} is <dynamic>, not float64 *)

Inductive outcome (A : Type) : Type :=
| Returned (a : A)
| Panicked (p : PanicValue).
Arguments Returned {A} a.
Arguments Panicked {A} p.

(** Status codes of chaosblade-spec-go ([spec.OK.Code] and the like); only
    their identity matters here. *)
Inductive CodeType : Type := OK | ContainerExecFailed | CreateContainerFailed.

#[global] Instance CodeType_eq_dec : EqDecision CodeType.
Proof. solve_decision. Defined.

(** Reading a possibly nil Go map. *)
Definition go_lookup {V : Type} (m : option (gmap string V)) (k : string) : option V :=
  match m with
  | Some m => m !! k
  | None => None
  end.

(** Reading a [map[string]string]: a missing key reads as the empty string. *)
Definition go_index (m : option (gmap string string)) (k : string) : string :=
  default "" (go_lookup m k).

(** ** Package context *)
Module context.

Inductive Context : Type :=
| Background
| WithNamespace (parent : Context) (namespace : string) (* containerd's namespaces.WithNamespace *)
| WithCancel (parent : Context) (handle : nat)
| WithDeadline (parent : Context) (deadline : Z).

(** [ctx.Deadline()] *)
Fixpoint Deadline (ctx : Context) : option Z :=
  match ctx with
  | Background => None
  | WithNamespace parent _ => Deadline parent
  | WithCancel parent _ => Deadline parent
  | WithDeadline parent d =>
      match Deadline parent with
      | Some d' => Some (Z.min d d')
      | None => Some d
      end
  end.

(** [ctx.Err()], given the cancel handles that have fired and the clock. *)
Fixpoint Err (fired : gset nat) (now : Z) (ctx : Context) : option error :=
  match ctx with
  | Background => None
  | WithNamespace parent _ => Err fired now parent
  | WithCancel parent h =>
      match Err fired now parent with
      | Some e => Some e
      | None => if decide (h ∈ fired) then Some Canceled else None
      end
  | WithDeadline parent d =>
      match Err fired now parent with
      | Some e => Some e
      | None => if decide (d ≤ now)%Z then Some DeadlineExceeded else None
      end
  end.

End context.

(** ** Messages of k8s.io/cri-api/pkg/apis/runtime/v1 (the fields the client touches) *)
Module v1.

Module ContainerMetadata.
Record t := mk { Name : string }.
End ContainerMetadata.

Module ContainerStatusRequest.
Record t := mk { ContainerId : string; Verbose : bool }.
End ContainerStatusRequest.

Module ContainerStatus.
Record t := mk {
    Id : string;
    Metadata : option ContainerMetadata.t;
    Labels : option (gmap string string) }.
End ContainerStatus.

Module ContainerStatusResponse.
Record t := mk {
    Status : option ContainerStatus.t;
    Info : option (gmap string string) }.
End ContainerStatusResponse.

Module ContainerFilter.
Record t := mk { }.
End ContainerFilter.

Module ListContainersRequest.
Record t := mk { Filter : option ContainerFilter.t }.
End ListContainersRequest.

Module Container.
Record t := mk {
    Id : string;
    Metadata : option ContainerMetadata.t;
    Labels : option (gmap string string) }.
End Container.

Module ListContainersResponse.
Record t := mk { Containers : list (option Container.t) }.
End ListContainersResponse.

Module StopContainerRequest.
Record t := mk { ContainerId : string; Timeout : Z }.
End StopContainerRequest.

Module RemoveContainerRequest.
Record t := mk { ContainerId : string }.
End RemoveContainerRequest.

Module StartContainerRequest.
Record t := mk { ContainerId : string }.
End StartContainerRequest.

Module ExecSyncRequest.
Record t := mk { ContainerId : string; Cmd : option (list string); Timeout : Z }.
End ExecSyncRequest.

Module ExecSyncResponse.
Record t := mk { Stdout : string; Stderr : string; ExitCode : Z }.
End ExecSyncResponse.

Module ImageSpec.
Record t := mk { Image : string }.
End ImageSpec.

Module PullImageRequest.
Record t := mk { Image : option ImageSpec.t }.
End PullImageRequest.

Module ImageStatusRequest.
Record t := mk { Image : option ImageSpec.t }.
End ImageStatusRequest.

Module LinuxContainerResources.
Record t := mk { MemoryLimitInBytes : Z }.
End LinuxContainerResources.

Module LinuxContainerConfig.
Record t := mk { Resources : option LinuxContainerResources.t }.
End LinuxContainerConfig.

Module ContainerConfig.
Record t := mk {
    Metadata : option ContainerMetadata.t;
    Image : option ImageSpec.t;
    Command : option (list string);
    Args : option (list string);
    WorkingDir : string;
    Labels : option (gmap string string);
    Linux : option LinuxContainerConfig.t }.
End ContainerConfig.

Module PodSandboxConfig.
Record t := mk { }.
End PodSandboxConfig.

Module CreateContainerRequest.
Record t := mk {
    Config : option ContainerConfig.t;
    SandboxConfig : option PodSandboxConfig.t }.
End CreateContainerRequest.

Module CreateContainerResponse.
Record t := mk { ContainerId : string }.
End CreateContainerResponse.

Module StopContainerResponse.
Record t := mk { }.
End StopContainerResponse.

Module RemoveContainerResponse.
Record t := mk { }.
End RemoveContainerResponse.

Module StartContainerResponse.
Record t := mk { }.
End StartContainerResponse.

Module ImageStatusResponse.
Record t := mk { }.
End ImageStatusResponse.

Module PullImageResponse.
Record t := mk { ImageRef : string }.
End PullImageResponse.

End v1.

(** ** Docker's container.Config and container.HostConfig (the fields read) *)
Module containertype.

Module Config.
Record t := mk {
    Image : string;
    Cmd : option (list string);
    Entrypoint : option (list string);
    Labels : option (gmap string string);
    WorkingDir : string }.
End Config.

Module HostConfig.
Record t := mk { Memory : Z }.
End HostConfig.

End containertype.

(** ** The generic container DTO *)
Module container.

(** Modelled from the spec: the declaration of [container.ContainerInfo]
    (package exec/container) is not among the sources; section 3 gives it
    an identifier, a display name, a label mapping and a placeholder for a
    runtime-specific specification that this client never fills. *)
Record ContainerInfo := mkContainerInfo {
  ContainerId : string;
  ContainerName : string;
  Labels : option (gmap string string);
  Spec : option unit }.

(** [var containerInfo container.ContainerInfo] *)
Definition zero : ContainerInfo :=
  {| ContainerId := ""; ContainerName := ""; Labels := None; Spec := None |}.

End container.


(** ** Package encoding/json: what [json.Unmarshal] stores in an [interface{}] *)
Module json.

Inductive Value (float64 : Type) : Type :=
| Null
| Bool (b : bool)
| Number (f : float64)
| Str (s : string)
| Array (l : list (Value float64))
| Object (m : gmap string (Value float64)).
Arguments Null {float64}.
Arguments Bool {float64} b.
Arguments Number {float64} f.
Arguments Str {float64} s.
Arguments Array {float64} l.
Arguments Object {float64} m.

(** The dynamic type a failed type assertion reports; [None] is a key that
    is not in the map, which reads as the nil interface, as JSON null does. *)
Definition dynamic_type {float64 : Type} (v : option (Value float64)) : string :=
  match v with
  | None | Some Null => "nil"
  | Some (Bool _) => "bool"
  | Some (Number _) => "float64"
  | Some (Str _) => "string"
  | Some (Array _) => "[]interface {}"
  | Some (Object _) => "map[string]interface {}"
  end.

End json.

(** ** Package strings *)

(** [strings.Split(s, " ")] *)
Fixpoint strings_Split_space (s : string) : list string :=
  match s with
  | EmptyString => [""]
  | String c rest =>
      let parts := strings_Split_space rest in
      if Ascii.eqb c (Ascii.ascii_of_nat 32) then "" :: parts
      else match parts with
           | first :: others => String c first :: others
           | [] => [String c ""]
           end
  end.

(** The line feed, as a string. *)
Definition nl : string := String (Ascii.ascii_of_nat 10) EmptyString.

(** [uint32(x)] of an [int32] *)
Definition uint32_of_int32 (x : Z) : Z := (x mod 2 ^ 32)%Z.

(** ** The interfaces of the collaborators *)

(** A unary gRPC call: it consumes the world, may change it, and hands
    back Go's pair of a response pointer and an error. *)
Definition unary (W Req Resp : Type) : Type :=
  context.Context → Req → W → (option Resp * option error) * W.

Module RuntimeServiceClient.
Record t (W : Type) := mk {
  ContainerStatus : unary W v1.ContainerStatusRequest.t v1.ContainerStatusResponse.t;
  ListContainers : unary W v1.ListContainersRequest.t v1.ListContainersResponse.t;
  StopContainer : unary W v1.StopContainerRequest.t v1.StopContainerResponse.t;
  RemoveContainer : unary W v1.RemoveContainerRequest.t v1.RemoveContainerResponse.t;
  StartContainer : unary W v1.StartContainerRequest.t v1.StartContainerResponse.t;
  CreateContainer : unary W v1.CreateContainerRequest.t v1.CreateContainerResponse.t;
  ExecSync : unary W v1.ExecSyncRequest.t v1.ExecSyncResponse.t }.
Arguments ContainerStatus {W} _ _ _ _.
Arguments ListContainers {W} _ _ _ _.
Arguments StopContainer {W} _ _ _ _.
Arguments RemoveContainer {W} _ _ _ _.
Arguments StartContainer {W} _ _ _ _.
Arguments CreateContainer {W} _ _ _ _.
Arguments ExecSync {W} _ _ _ _.
End RuntimeServiceClient.

Module ImageServiceClient.
Record t (W : Type) := mk {
  ImageStatus : unary W v1.ImageStatusRequest.t v1.ImageStatusResponse.t;
  PullImage : unary W v1.PullImageRequest.t v1.PullImageResponse.t }.
Arguments ImageStatus {W} _ _ _ _.
Arguments PullImage {W} _ _ _ _.
End ImageServiceClient.

(** The calls a client can put on the wire, as the trace records them. *)
Module rpc.
Inductive Call : Type :=
| ContainerStatus (ctx : context.Context) (req : v1.ContainerStatusRequest.t)
| ListContainers (ctx : context.Context) (req : v1.ListContainersRequest.t)
| StopContainer (ctx : context.Context) (req : v1.StopContainerRequest.t)
| RemoveContainer (ctx : context.Context) (req : v1.RemoveContainerRequest.t)
| StartContainer (ctx : context.Context) (req : v1.StartContainerRequest.t)
| CreateContainer (ctx : context.Context) (req : v1.CreateContainerRequest.t)
| ExecSync (ctx : context.Context) (req : v1.ExecSyncRequest.t)
| ImageStatus (ctx : context.Context) (req : v1.ImageStatusRequest.t)
| PullImage (ctx : context.Context) (req : v1.PullImageRequest.t).
End rpc.

Module grpc.
Inductive DialOption : Type := WithInsecure | WithBlock.
End grpc.

(** What [cmd.Run()] leaves behind: the two buffers the command's streams
    were wired to, and the error of the run. *)
Record ProcResult := mkProcResult {
  proc_stdout : string;
  proc_stderr : string;
  proc_err : option error }.

Inductive LogLevel : Type := Info | Debug.

Inductive Event (Conn File : Type) : Type :=
| EvDial (ctx : context.Context) (target : string) (opts : list grpc.DialOption)
| EvConnClose (conn : Conn)
| EvRPC (call : rpc.Call)
| EvOpen (name : string)
| EvFileClose (f : File)
| EvRun (name : string) (args : list string) (stdin : option File)
| EvLog (level : LogLevel) (msg : string).
Arguments EvDial {Conn File} ctx target opts.
Arguments EvConnClose {Conn File} conn.
Arguments EvRPC {Conn File} call.
Arguments EvOpen {Conn File} name.
Arguments EvFileClose {Conn File} f.
Arguments EvRun {Conn File} name args stdin.
Arguments EvLog {Conn File} level msg.

(** Everything the two files reach outside their own code: gRPC, the
    generated CRI stubs, os and os/exec, encoding/json, path, time, and the
    constants of chaosblade-spec-go. *)
Class Platform (W Conn File float64 : Type) := {
  (* google.golang.org/grpc *)
  grpc_DialContext :
    context.Context → string → list grpc.DialOption → W → (option Conn * option error) * W;
  ClientConn_Close : Conn → W → option error * W;
  (* k8s.io/cri-api *)
  v1_NewRuntimeServiceClient : option Conn → RuntimeServiceClient.t W;
  v1_NewImageServiceClient : option Conn → ImageServiceClient.t W;
  ExecSyncResponse_String : v1.ExecSyncResponse.t → string;
  (* time *)
  clock : W → Z;
  (* int64(d.Seconds()) of a time.Duration d, which goes through float64 *)
  Duration_Seconds_int64 : Z → Z;
  (* encoding/json: json.Unmarshal into a nil map[string]interface{} *)
  json_Unmarshal : string → error + option (gmap string (json.Value float64));
  (* the conversion int32(f) of a float64 *)
  int32_of_float64 : float64 → Z;
  (* os and os/exec *)
  os_Open : string → W → (error + File) * W;
  File_Close : File → W → W;
  Cmd_Run : string → list string → option File → W → ProcResult * W;
  (* path *)
  path_Join : list string → string;
  path_Base : string → string;
  (* chaosblade-spec-go *)
  util_GetProgramPath : string;
  spec_NSExecBin : string }.

(** ** The state of a run and the monad of the embedding *)
Section Process.

Context {W Conn File float64 : Type} `{!Platform W Conn File float64}.

Record St := mkSt {
  world : W;                      (* the collaborators' state *)
  trace : list (Event Conn File); (* every call made so far, oldest first *)
  fired : gset nat;               (* cancel functions that were called *)
  next_handle : nat }.            (* next cancel function to hand out *)

Definition M (A : Type) : Type := St → outcome A * St.

Definition ret {A : Type} (a : A) : M A := λ st, (Returned a, st).

Definition bind {A B : Type} (m : M A) (k : A → M B) : M B :=
  λ st, match m st with
        | (Returned a, st') => k a st'
        | (Panicked p, st') => (Panicked p, st')
        end.

Definition panic {A : Type} (p : PanicValue) : M A := λ st, (Panicked p, st).

(** [*p] *)
Definition deref {A : Type} (p : option A) : M A :=
  match p with
  | Some a => ret a
  | None => panic NilDereference
  end.

(** A call on a collaborator: logged, then run on the world. *)
Definition perform {A : Type} (ev : Event Conn File) (f : W → A * W) : M A :=
  λ st, let '(a, w) := f (world st) in
        (Returned a,
         {| world := w; trace := trace st ++ [ev];
            fired := fired st; next_handle := next_handle st |}).

Definition invoke {Req Resp : Type} (call : context.Context → Req → rpc.Call)
    (method : unary W Req Resp) (ctx : context.Context) (req : Req)
  : M (option Resp * option error) :=
  perform (EvRPC (call ctx req)) (method ctx req).

Definition log_Infof (msg : string) : M unit :=
  perform (EvLog Info msg) (λ w, (tt, w)).

Definition log_Debugf (msg : string) : M unit :=
  perform (EvLog Debug msg) (λ w, (tt, w)).

(** [context.WithCancel(parent)]: the context and its cancel function. *)
Definition context_WithCancel (parent : context.Context) : M (context.Context * nat) :=
  λ st, (Returned (context.WithCancel parent (next_handle st), next_handle st),
         {| world := world st; trace := trace st;
            fired := fired st; next_handle := S (next_handle st) |}).

(** [ctx.Err()] *)
Definition ctx_Err (ctx : context.Context) : M (option error) :=
  λ st, (Returned (context.Err (fired st) (clock (world st)) ctx), st).

End Process.


Notation "'let*' x := m 'in' k" := (bind m (λ x, k))
  (at level 10, x pattern, m at level 100, k at level 200,
   format "'[v' 'let*'  x  :=  m  'in' '/' k ']'").
Notation "m ;; k" := (bind m (λ _, k))
  (at level 100, k at level 200, right associativity,
   format "'[v' m  ;; '/' k ']'").

(** ** exec/container/cri-o/crio-linux.go *)
Section crio_linux.

Context {W Conn File float64 : Type} `{!Platform W Conn File float64}.

Local Abbreviation M := (M (W:=W) (Conn:=Conn) (File:=File)).

(** [exec.Command(name, args...)] with its streams wired to fresh buffers
    and [Stdin] to [stdin], then [cmd.Run()]. *)
Definition run (name : string) (args : list string) (stdin : option File) : M ProcResult :=
  perform (EvRun name args stdin) (Cmd_Run name args stdin).

(** The part of [crioCopyToContainer] that follows a successful [os.Open];
    the deferred [open.Close()] runs when it returns. *)
Definition copy_with_open (pid : Z) (srcFile dstPath nsbin args command : string)
    (argsArray : list string) (open : File) : M (option error) :=
  let* r1 := run nsbin (argsArray ++ [command]) (Some open) in
  let outMsg := proc_stdout r1 in
  let errMsg := proc_stderr r1 in
  let err := proc_err r1 in
  log_Debugf ("Command Result, output: " +:+ outMsg +:+ ", errMsg: " +:+ errMsg
              +:+ ",  err: " +:+ fmt_v err);;
  match err with
  | Some e => ret (Some e)
  | None =>
      if negb (Nat.eqb (String.length errMsg) 0) then ret (Some (errors_New errMsg))
      else
        (* tar -zxf *)
        let command :=
          "-t " +:+ pretty pid +:+ " -p -m -- tar -zxf "
          +:+ path_Join [dstPath; path_Base srcFile] +:+ " -C " +:+ dstPath in
        log_Infof ("run tar cmd: " +:+ nsbin +:+ " " +:+ command);;
        let* r2 := run nsbin (strings_Split_space command) None in
        let outMsg2 := proc_stdout r2 in
        let errMsg2 := proc_stderr r2 in
        let err := proc_err r2 in
        log_Debugf ("Tar Command Result, output: " +:+ outMsg2 +:+ ", errMsg: " +:+ errMsg2
                    +:+ ",  err: " +:+ fmt_v err);;
        match err with
        | Some e => ret (Some e)
        | None =>
            if negb (Nat.eqb (String.length errMsg2) 0) then ret (Some (errors_New errMsg))
            else ret None
        end
  end.

(** [pid] is a [uint32]. *)
Definition crioCopyToContainer (ctx : context.Context) (pid : Z)
    (srcFile dstPath extractDirName : string) (override : bool) : M (option error) :=
  let args := "-t " +:+ pretty pid +:+ " -p -m -- /bin/sh -c" in
  let argsArray := strings_Split_space args in
  let nsbin := path_Join [util_GetProgramPath; "bin"; spec_NSExecBin] in
  let command := "cat > " +:+ path_Join [dstPath; path_Base srcFile] in
  log_Infof ("run copy cmd: " +:+ nsbin +:+ " " +:+ args +:+ " " +:+ command);;
  let* opened := perform (EvOpen srcFile) (os_Open srcFile) in
  match opened with
  | inl err => ret (Some err)
  | inr open =>
      let* result := copy_with_open pid srcFile dstPath nsbin args command argsArray open in
      perform (EvFileClose open) (λ w, (tt, File_Close open w));;
      ret result
  end.

(** [pid] is an [int32]. *)
Definition crioExecContainer (ctx : context.Context) (pid : Z) (command : string)
  : M (string * option error) :=
  let args := "-t " +:+ pretty pid +:+ " -p -m -n -- /bin/sh -c" in
  let argsArray := strings_Split_space args in
  let nsbin := path_Join [util_GetProgramPath; "bin"; spec_NSExecBin] in
  log_Infof ("exec container cmd: " +:+ nsbin +:+ " " +:+ args +:+ " " +:+ command);;
  let* r := run nsbin (argsArray ++ [command]) None in
  let outMsg := proc_stdout r in
  let errMsg := proc_stderr r in
  let err := proc_err r in
  log_Debugf ("Command Result, output: " +:+ outMsg +:+ ", errMsg: " +:+ errMsg
              +:+ ", err: " +:+ fmt_v err);;
  match err with
  | Some e => ret ("", Some e)
  | None =>
      if Nat.ltb 0 (String.length errMsg) then ret (errMsg, None)
      else ret (outMsg, None)
  end.

End crio_linux.

(** ** exec/container/crio/crio.go *)

Module network.
Record NetworkingConfig := mkNetworkingConfig { }.
End network.

Definition DefaultStateUinxAddress : string := "unix:///var/run/crio/crio.sock".
Definition DefaultContainerdNameSpace : string := "k8s.io".

(** The body of the [for key, value := range labelSelector] loop of
    [matchLabels], over the selector's entries in the order the range
    yields them. *)
Fixpoint matchLabels_range (labels : option (gmap string string))
    (entries : list (string * string)) : bool :=
  match entries with
  | [] => true
  | (key, value) :: rest =>
      match go_lookup labels key with
      | None => false
      | Some containerValue =>
          if negb (String.eqb containerValue value) then false
          else matchLabels_range labels rest
      end
  end.

(** The entries a [range] over a possibly nil map yields. *)
Definition go_range (m : option (gmap string string)) : list (string * string) :=
  match m with
  | Some m => map_to_list m
  | None => []
  end.

Definition matchLabels (container : option v1.Container.t)
    (labelSelector : option (gmap string string)) : outcome bool :=
  match container with
  | None => Panicked NilDereference
  | Some c =>
      let labels := v1.Container.Labels c in
      match labels with
      | None => Returned false
      | Some _ => Returned (matchLabels_range labels (go_range labelSelector))
      end
  end.

Definition convertContainerInfo (containerDetail : option v1.ContainerStatus.t)
  : outcome container.ContainerInfo :=
  match containerDetail with
  | None => Panicked NilDereference
  | Some d =>
      match v1.ContainerStatus.Metadata d with
      | None => Panicked NilDereference
      | Some metadata =>
          Returned {| container.ContainerId := v1.ContainerStatus.Id d;
                      container.ContainerName := v1.ContainerMetadata.Name metadata;
                      container.Labels := v1.ContainerStatus.Labels d;
                      container.Spec := None |}
      end
  end.

Definition convertContainerInfo2 (containerDetail : option v1.Container.t)
  : outcome container.ContainerInfo :=
  match containerDetail with
  | None => Panicked NilDereference
  | Some d =>
      match v1.Container.Metadata d with
      | None => Panicked NilDereference
      | Some metadata =>
          Returned {| container.ContainerId := v1.Container.Id d;
                      container.ContainerName := v1.ContainerMetadata.Name metadata;
                      container.Labels := v1.Container.Labels d;
                      container.Spec := None |}
      end
  end.

(** The filtering loop of [GetContainerByLabelSelector]; [filtered] is
    [filteredContainers] so far. *)
Fixpoint filter_by_labels (containers : list (option v1.Container.t))
    (labels : option (gmap string string)) (filtered : list (option v1.Container.t))
  : outcome (list (option v1.Container.t)) :=
  match containers with
  | [] => Returned filtered
  | container :: rest =>
      match matchLabels container labels with
      | Panicked p => Panicked p
      | Returned true => filter_by_labels rest labels (filtered ++ [container])
      | Returned false => filter_by_labels rest labels filtered
      end
  end.

(** The scanning loop of [GetContainerByName]; the result is
    [containerID] when the loop is left. *)
Fixpoint find_by_name (containers : list (option v1.Container.t)) (containerName : string)
  : outcome string :=
  match containers with
  | [] => Returned ""
  | None :: _ => Panicked NilDereference
  | Some c :: rest =>
      if String.eqb (go_index (v1.Container.Labels c) "io.kubernetes.container.name")
                    containerName
      then Returned (v1.Container.Id c)
      else find_by_name rest containerName
  end.

Section crio.

Context {W Conn File float64 : Type} `{!Platform W Conn File float64}.

Local Abbreviation M := (M (W:=W) (Conn:=Conn) (File:=File)).

Record CRIClient := mkCRIClient {
  runtimeService : RuntimeServiceClient.t W;
  conn : option Conn;
  imageService : ImageServiceClient.t W;
  Ctx : context.Context;
  Cancel : nat }.

Definition lift {A : Type} (o : outcome A) : M A := λ st, (o, st).

Definition NewClient (endpoint namespace : string) : M (option CRIClient * option error) :=
  let dialOptions := [grpc.WithInsecure; grpc.WithBlock] in
  let endpoint := if String.eqb endpoint "" then DefaultStateUinxAddress else endpoint in
  let namespace := if String.eqb namespace "" then DefaultContainerdNameSpace else namespace in
  let ctx := context.Background in
  let ctx := context.WithNamespace ctx namespace in
  let* (ctx, cancel) := context_WithCancel ctx in
  let* (conn, err) :=
    perform (EvDial ctx endpoint dialOptions) (grpc_DialContext ctx endpoint dialOptions) in
  match err with
  | Some err =>
      let* ctxErr := ctx_Err ctx in
      if decide (ctxErr = Some DeadlineExceeded) then
        ret (None, Some (wrapError ("failed to connect to crio endpoint " +:+ endpoint
                                    +:+ ": " +:+ fmt_v ctxErr) DeadlineExceeded))
      else
        ret (None, Some (errorString ("failed to connect to crio endpoint " +:+ endpoint
                                      +:+ ": " +:+ Error err)))
  | None =>
      let runtimeService := v1_NewRuntimeServiceClient conn in
      let imageService := v1_NewImageServiceClient conn in
      ret (Some {| runtimeService := runtimeService; conn := conn;
                   imageService := imageService; Ctx := ctx; Cancel := cancel |},
           None)
  end.

Definition Close (c : CRIClient) : M (option error) :=
  match conn c with
  | None => panic NilDereference
  | Some cc => perform (EvConnClose cc) (ClientConn_Close cc)
  end.

Definition GetContainerById (c : CRIClient) (ctx : context.Context) (containerId : string)
  : M (container.ContainerInfo * option error * CodeType) :=
  let containerInfo := container.zero in
  let request := v1.ContainerStatusRequest.mk containerId true in
  let* (response, err) :=
    invoke rpc.ContainerStatus (RuntimeServiceClient.ContainerStatus (runtimeService c))
           ctx request in
  match err with
  | Some err =>
      ret (containerInfo,
           Some (errorString ("failed to get container status for container "
                              +:+ containerId +:+ ": " +:+ Error err)),
           ContainerExecFailed)
  | None =>
      match response with
      | None =>
          ret (containerInfo,
               Some (errorString ("no response status found for container " +:+ containerId)),
               ContainerExecFailed)
      | Some response =>
          match v1.ContainerStatusResponse.Status response with
          | None =>
              ret (containerInfo,
                   Some (errorString ("no response status found for container "
                                      +:+ containerId)),
                   ContainerExecFailed)
          | Some status =>
              let* info := lift (convertContainerInfo (Some status)) in
              ret (info, None, OK)
          end
      end
  end.

Definition GetPidById (c : CRIClient) (ctx : context.Context) (containerId : string)
  : M (Z * option error * CodeType) :=
  let request := v1.ContainerStatusRequest.mk containerId true in
  let* (response, err) :=
    invoke rpc.ContainerStatus (RuntimeServiceClient.ContainerStatus (runtimeService c))
           ctx request in
  match err with
  | Some err =>
      ret ((-1)%Z,
           Some (errorString ("failed to get container status and info for container "
                              +:+ containerId +:+ ": " +:+ Error err)),
           ContainerExecFailed)
  | None =>
      match response with
      | None =>
          ret ((-1)%Z,
               Some (errorString ("container info is nil for container " +:+ containerId)),
               ContainerExecFailed)
      | Some response =>
          match v1.ContainerStatusResponse.Info response with
          | None =>
              ret ((-1)%Z,
                   Some (errorString ("container info is nil for container " +:+ containerId)),
                   ContainerExecFailed)
          | Some _ =>
              let info := v1.ContainerStatusResponse.Info response in
              match json_Unmarshal (go_index info "info") with
              | inl err =>
                  ret ((-1)%Z,
                       Some (errorString ("json.Unmarshal container info error for container "
                                          +:+ containerId +:+ "," +:+ Error err)),
                       ContainerExecFailed)
              | inr dataMap =>
                  (* dataMap["pid"].(float64) *)
                  match go_lookup dataMap "pid" with
                  | Some (json.Number f) => ret (int32_of_float64 f, None, OK)
                  | other => panic (InterfaceConversion (json.dynamic_type other))
                  end
              end
          end
      end
  end.

Definition GetContainerByName (c : CRIClient) (ctx : context.Context) (containerName : string)
  : M (container.ContainerInfo * option error * CodeType) :=
  let containerInfo := container.zero in
  let listRequest := v1.ListContainersRequest.mk (Some v1.ContainerFilter.mk) in
  let* (listResponse, err) :=
    invoke rpc.ListContainers (RuntimeServiceClient.ListContainers (runtimeService c))
           ctx listRequest in
  match err with
  | Some err =>
      ret (containerInfo,
           Some (errorString ("failed to list containers: " +:+ Error err)),
           ContainerExecFailed)
  | None =>
      let* listResponse := deref listResponse in
      let* containerID :=
        lift (find_by_name (v1.ListContainersResponse.Containers listResponse) containerName) in
      if String.eqb containerID "" then
        ret (containerInfo,
             Some (errorString ("container with name " +:+ containerName +:+ " not found")),
             ContainerExecFailed)
      else
        let statusRequest := v1.ContainerStatusRequest.mk containerID false in
        let* (statusResponse, err) :=
          invoke rpc.ContainerStatus (RuntimeServiceClient.ContainerStatus (runtimeService c))
                 ctx statusRequest in
        match err with
        | Some err =>
            ret (containerInfo,
                 Some (errorString ("no statusResponse found for containername "
                                    +:+ containerName +:+ ",error: " +:+ Error err)),
                 ContainerExecFailed)
        | None =>
            match statusResponse with
            | None =>
                ret (containerInfo,
                     Some (errorString ("no statusResponse found for container "
                                        +:+ containerName)),
                     ContainerExecFailed)
            | Some statusResponse =>
                match v1.ContainerStatusResponse.Status statusResponse with
                | None =>
                    ret (containerInfo,
                         Some (errorString ("no statusResponse found for container "
                                            +:+ containerName)),
                         ContainerExecFailed)
                | Some status =>
                    let* info := lift (convertContainerInfo (Some status)) in
                    ret (info, None, OK)
                end
            end
        end
  end.

Definition GetContainerByLabelSelector (c : CRIClient) (labels : option (gmap string string))
  : M (container.ContainerInfo * option error * CodeType) :=
  let containerInfo := container.zero in
  let listRequest := v1.ListContainersRequest.mk None in
  let* (listResponse, err) :=
    invoke rpc.ListContainers (RuntimeServiceClient.ListContainers (runtimeService c))
           (Ctx c) listRequest in
  match err with
  | Some err =>
      ret (containerInfo,
           Some (errorString ("failed to list containers: " +:+ Error err)),
           ContainerExecFailed)
  | None =>
      let* listResponse := deref listResponse in
      let* filteredContainers :=
        lift (filter_by_labels (v1.ListContainersResponse.Containers listResponse) labels []) in
      match filteredContainers with
      | [] =>
          ret (containerInfo,
               Some (errorString ("no containers found: " +:+ fmt_v None)), (* err is nil here *)
               ContainerExecFailed)
      | first :: _ =>
          let* ContainerInfo := lift (convertContainerInfo2 first) in
          ret (ContainerInfo, None, OK)
      end
  end.

Definition RemoveContainer (c : CRIClient) (ctx : context.Context) (containerId : string)
    (force : bool) : M (option error) :=
  let stopRequest := v1.StopContainerRequest.mk containerId 15 in
  let* (_, err) :=
    invoke rpc.StopContainer (RuntimeServiceClient.StopContainer (runtimeService c))
           ctx stopRequest in
  match err with
  | Some err =>
      ret (Some (errorString ("failed to stop container " +:+ containerId
                              +:+ ": " +:+ Error err)))
  | None =>
      let removeRequest := v1.RemoveContainerRequest.mk containerId in
      let* (_, err) :=
        invoke rpc.RemoveContainer (RuntimeServiceClient.RemoveContainer (runtimeService c))
               ctx removeRequest in
      match err with
      | Some err =>
          ret (Some (errorString ("failed to remove container " +:+ containerId
                                  +:+ ": " +:+ Error err)))
      | None => ret None
      end
  end.

Definition CopyToContainer (c : CRIClient) (ctx : context.Context)
    (containerId srcFile dstPath extractDirName : string) (override : bool)
  : M (option error) :=
  let* (processId, err, _) := GetPidById c ctx containerId in
  match err with
  | Some err => ret (Some err)
  | None =>
      crioCopyToContainer ctx (uint32_of_int32 processId) srcFile dstPath extractDirName override
  end.

Definition ExecContainer (c : CRIClient) (ctx : context.Context) (containerId command : string)
  : M (string * option error) :=
  let* (processId, err, _) := GetPidById c ctx containerId in
  match err with
  | Some err => ret ("", Some err)
  | None => crioExecContainer ctx processId command
  end.

Definition CreateContainer (c : CRIClient) (ctx : context.Context) (containerName : string)
    (config : option containertype.Config.t) (hostConfig : option containertype.HostConfig.t)
    (networkConfig : option network.NetworkingConfig) : M (string * option error) :=
  let* cfg := deref config in
  let imageSpec := Some (v1.ImageSpec.mk (containertype.Config.Image cfg)) in
  let pullRequest := v1.PullImageRequest.mk imageSpec in
  let statusRequest := v1.ImageStatusRequest.mk imageSpec in
  let* (_, err) :=
    invoke rpc.ImageStatus (ImageServiceClient.ImageStatus (imageService c))
           ctx statusRequest in
  let* (_, err) :=
    invoke rpc.PullImage (ImageServiceClient.PullImage (imageService c)) ctx pullRequest in
  match err with
  | Some err =>
      ret ("", Some (errorString ("failed to pull image " +:+ containertype.Config.Image cfg
                                  +:+ ": " +:+ Error err)))
  | None =>
      let* host := deref hostConfig in
      let linuxConfig :=
        v1.LinuxContainerConfig.mk
          (Some (v1.LinuxContainerResources.mk (containertype.HostConfig.Memory host))) in
      let containerConfig :=
        {| v1.ContainerConfig.Metadata := Some (v1.ContainerMetadata.mk containerName);
           v1.ContainerConfig.Image := imageSpec;
           v1.ContainerConfig.Command := containertype.Config.Cmd cfg;
           v1.ContainerConfig.Args := containertype.Config.Entrypoint cfg;
           v1.ContainerConfig.WorkingDir := containertype.Config.WorkingDir cfg;
           v1.ContainerConfig.Labels := containertype.Config.Labels cfg;
           v1.ContainerConfig.Linux := Some linuxConfig |} in
      let containerRequest :=
        v1.CreateContainerRequest.mk (Some containerConfig) (Some v1.PodSandboxConfig.mk) in
      let* (containerResponse, err) :=
        invoke rpc.CreateContainer (RuntimeServiceClient.CreateContainer (runtimeService c))
               ctx containerRequest in
      match err with
      | Some err =>
          ret ("", Some (errorString ("failed to create container: " +:+ Error err)))
      | None =>
          let* containerResponse := deref containerResponse in
          ret (v1.CreateContainerResponse.ContainerId containerResponse, None)
      end
  end.

(** [config] is a pointer and [config.Cmd] may be assigned through it: the
    last component of the result is the object it points to when the call
    returns. [timeout] is a [time.Duration], in nanoseconds. *)
Definition ExecuteAndRemove (c : CRIClient) (ctx : context.Context)
    (config : option containertype.Config.t) (hostConfig : option containertype.HostConfig.t)
    (networkConfig : option network.NetworkingConfig) (containerName : string)
    (removed : bool) (timeout : Z) (command : string) (containerInfo : container.ContainerInfo)
  : M (string * string * option error * CodeType * option containertype.Config.t) :=
  let* (containerId, err) :=
    CreateContainer c ctx containerName config hostConfig networkConfig in
  match err with
  | Some err =>
      ret ("", "", Some (errorString ("CreateContainer error:" +:+ Error err)),
           CreateContainerFailed, config)
  | None =>
      let startRequest := v1.StartContainerRequest.mk containerId in
      let* (_, err) :=
        invoke rpc.StartContainer (RuntimeServiceClient.StartContainer (runtimeService c))
               ctx startRequest in
      match err with
      | Some err =>
          ret ("", "", Some (errorString ("StartContainer error:" +:+ Error err)),
               CreateContainerFailed, config)
      | None =>
          let cmdslice := Some [command] in
          let* cfg := deref config in
          let cfg :=
            match containertype.Config.Cmd cfg with
            | None =>
                {| containertype.Config.Image := containertype.Config.Image cfg;
                   containertype.Config.Cmd := cmdslice;
                   containertype.Config.Entrypoint := containertype.Config.Entrypoint cfg;
                   containertype.Config.Labels := containertype.Config.Labels cfg;
                   containertype.Config.WorkingDir := containertype.Config.WorkingDir cfg |}
            | Some _ => cfg
            end in
          let config := Some cfg in
          let execRequest :=
            v1.ExecSyncRequest.mk containerId (containertype.Config.Cmd cfg)
                                  (Duration_Seconds_int64 timeout) in
          let* (execResponse, err) :=
            invoke rpc.ExecSync (RuntimeServiceClient.ExecSync (runtimeService c))
                   ctx execRequest in
          match err with
          | Some err =>
              (* one operand for two verbs: %s takes err, %v has none *)
              ret (containerId, "",
                   Some (errorString ("failed to execute command in container "
                                      +:+ Error err +:+ ": %!v(MISSING)")),
                   CreateContainerFailed, config)
          | None =>
              let* execResponse := deref execResponse in
              if negb (v1.ExecSyncResponse.ExitCode execResponse =? 0)%Z then
                ret (containerId, "",
                     Some (errorString ("command in container failed : " +:+ fmt_v None)),
                     ContainerExecFailed, config)
              else
                let stopRequest := v1.StopContainerRequest.mk containerId 10 in
                let* (_, err) :=
                  invoke rpc.StopContainer
                         (RuntimeServiceClient.StopContainer (runtimeService c))
                         ctx stopRequest in
                match err with
                | Some err =>
                    ret (containerId, "",
                         Some (errorString ("command in container failed : " +:+ Error err)),
                         ContainerExecFailed, config)
                | None =>
                    let removeRequest := v1.RemoveContainerRequest.mk containerId in
                    let* (_, err) :=
                      invoke rpc.RemoveContainer
                             (RuntimeServiceClient.RemoveContainer (runtimeService c))
                             ctx removeRequest in
                    match err with
                    | Some err =>
                        ret (containerId, "",
                             Some (errorString ("failed to remove container : " +:+ Error err)),
                             ContainerExecFailed, config)
                    | None =>
                        ret (containerId, ExecSyncResponse_String execResponse, None, OK,
                             config)
                    end
                end
          end
      end
  end.

End crio.

(** ** Test doubles

    A scripted platform: every collaborator answers from a fixed script.
    Its world is the number of helper processes run so far, so successive
    runs can answer differently; its [float64] values are integers. *)
Module double.

Record Script := mkScript {
  dial : option error;
  status : option v1.ContainerStatusResponse.t * option error;
  containers : option v1.ListContainersResponse.t * option error;
  stop : option error;
  remove : option error;
  start : option error;
  pull : option error;
  create : option v1.CreateContainerResponse.t * option error;
  exec : option v1.ExecSyncResponse.t * option error;
  open : option error;
  runs : list ProcResult }.

(** The double quote character, as a string. *)
Definition q : string := String (Ascii.ascii_of_nat 34) EmptyString.

(** The documents [{"pid":1234}] and [{"pid":"1234"}]. *)
Definition pid_number : string := "{" +:+ q +:+ "pid" +:+ q +:+ ":1234}".
Definition pid_string : string := "{" +:+ q +:+ "pid" +:+ q +:+ ":" +:+ q +:+ "1234" +:+ q +:+ "}".

(** A decoder that knows four documents. *)
Definition unmarshal (data : string) : error + option (gmap string (json.Value Z)) :=
  if String.eqb data "{}" then inr (Some ∅)
  else if String.eqb data "null" then inr None
  else if String.eqb data pid_number then inr (Some {[ "pid" := json.Number 1234%Z ]})
  else if String.eqb data pid_string then inr (Some {[ "pid" := json.Str "1234" ]})
  else inl (errorString "unexpected end of JSON input").

Definition answer {Req Resp : Type} (r : option Resp * option error) : unary nat Req Resp :=
  λ _ _ w, (r, w).

Definition runtime (s : Script) : RuntimeServiceClient.t nat :=
  {| RuntimeServiceClient.ContainerStatus := answer (status s);
     RuntimeServiceClient.ListContainers := answer (containers s);
     RuntimeServiceClient.StopContainer :=
       answer (Some v1.StopContainerResponse.mk, stop s);
     RuntimeServiceClient.RemoveContainer :=
       answer (Some v1.RemoveContainerResponse.mk, remove s);
     RuntimeServiceClient.StartContainer :=
       answer (Some v1.StartContainerResponse.mk, start s);
     RuntimeServiceClient.CreateContainer := answer (create s);
     RuntimeServiceClient.ExecSync := answer (exec s) |}.

Definition images (s : Script) : ImageServiceClient.t nat :=
  {| ImageServiceClient.ImageStatus := answer (Some v1.ImageStatusResponse.mk, None);
     ImageServiceClient.PullImage := answer (Some (v1.PullImageResponse.mk "ref"), pull s) |}.

Definition no_run : ProcResult :=
  {| proc_stdout := ""; proc_stderr := "";
     proc_err := Some (errorString "exec: no such file or directory") |}.

Definition platform (s : Script) : Platform nat unit unit Z :=
  {| grpc_DialContext := λ _ _ _ w,
       (match dial s with Some e => (None, Some e) | None => (Some tt, None) end, w);
     ClientConn_Close := λ _ w, (None, w);
     v1_NewRuntimeServiceClient := λ _, runtime s;
     v1_NewImageServiceClient := λ _, images s;
     ExecSyncResponse_String := λ r, v1.ExecSyncResponse.Stdout r;
     clock := λ _, 0%Z;
     Duration_Seconds_int64 := λ d, (d `quot` 1000000000)%Z;
     json_Unmarshal := unmarshal;
     int32_of_float64 := λ f, f;
     os_Open := λ _ w, (match open s with Some e => inl e | None => inr tt end, w);
     File_Close := λ _ w, w;
     Cmd_Run := λ _ _ _ w, (nth w (runs s) no_run, S w);
     path_Join := λ parts, foldr (λ p acc, if String.eqb acc "" then p else p +:+ "/" +:+ acc)
                                 "" parts;
     path_Base := λ p, p;
     util_GetProgramPath := "/opt/chaosblade";
     spec_NSExecBin := "nsexec" |}.

Definition client (s : Script) : CRIClient (W:=nat) (Conn:=unit) :=
  {| runtimeService := runtime s; conn := Some tt; imageService := images s;
     Ctx := context.WithCancel (context.WithNamespace context.Background "k8s.io") 0;
     Cancel := 0 |}.

Definition start_state : St (W:=nat) (Conn:=unit) (File:=unit) :=
  {| world := 0; trace := []; fired := ∅; next_handle := 1 |}.

(** Scripts for one collaborator at a time; the others are not reached. *)

(** The helper processes answer [rs], in that order. *)
Definition running (rs : list ProcResult) : Script :=
  {| dial := None; status := (None, None); containers := (None, None);
     stop := None; remove := None; start := None; pull := None;
     create := (None, None); exec := (None, None); open := None; runs := rs |}.

(** The status call answers [r]. *)
Definition reporting (r : v1.ContainerStatusResponse.t) : Script :=
  {| dial := None; status := (Some r, None); containers := (None, None);
     stop := None; remove := None; start := None; pull := None;
     create := (None, None); exec := (None, None); open := None; runs := [] |}.

(** The list call answers [cs]. *)
Definition listing (cs : list (option v1.Container.t)) : Script :=
  {| dial := None; status := (None, None);
     containers := (Some (v1.ListContainersResponse.mk cs), None);
     stop := None; remove := None; start := None; pull := None;
     create := (None, None); exec := (None, None); open := None; runs := [] |}.

(** The container [c0] is created; start and exec-sync answer as given. *)
Definition orchestrating (started : option error)
    (executed : option v1.ExecSyncResponse.t * option error) : Script :=
  {| dial := None; status := (None, None); containers := (None, None);
     stop := None; remove := None; start := started; pull := None;
     create := (Some (v1.CreateContainerResponse.mk "c0"), None);
     exec := executed; open := None; runs := [] |}.

(** The command run in [c0] exits with 1; the runtime refuses to start [c0]. *)
Definition exit_one : Script :=
  orchestrating None (Some (v1.ExecSyncResponse.mk "" "boom" 1), None).

Definition not_started : Script :=
  orchestrating (Some (errorString "rpc error: code = Unknown desc = container not ready"))
                (None, None).

(** The dial fails with [e]. *)
Definition unreachable (e : error) : Script :=
  {| dial := Some e; status := (None, None); containers := (None, None);
     stop := None; remove := None; start := None; pull := None;
     create := (None, None); exec := (None, None); open := None; runs := [] |}.

(** A container configuration and a host configuration to orchestrate. *)
Definition busybox : containertype.Config.t :=
  containertype.Config.mk "busybox" None None None "/".

Definition unlimited : containertype.HostConfig.t := containertype.HostConfig.mk 0.

(** The container [abc] named [nginx], with and without its metadata. *)
Definition nginx : v1.ContainerStatus.t :=
  v1.ContainerStatus.mk "abc" (Some (v1.ContainerMetadata.mk "nginx"))
                        (Some {[ "app" := "web" ]}).

Definition anonymous : v1.ContainerStatus.t := v1.ContainerStatus.mk "abc" None None.

(** A verbose status whose info blob is the empty JSON object. *)
Definition empty_info : v1.ContainerStatusResponse.t :=
  v1.ContainerStatusResponse.mk None (Some {[ "info" := "{}" ]}).

(** Four containers of a listing: one without labels, a database, and two
    web servers. *)
Definition unlabelled : v1.Container.t :=
  v1.Container.mk "c1" (Some (v1.ContainerMetadata.mk "pause")) None.

Definition db : v1.Container.t :=
  v1.Container.mk "c2" (Some (v1.ContainerMetadata.mk "postgres"))
                  (Some {[ "app" := "db" ]}).

Definition web1 : v1.Container.t :=
  v1.Container.mk "c3" (Some (v1.ContainerMetadata.mk "nginx-1"))
                  (Some {[ "app" := "web"; "tier" := "front" ]}).

Definition web2 : v1.Container.t :=
  v1.Container.mk "c4" (Some (v1.ContainerMetadata.mk "nginx-2"))
                  (Some {[ "app" := "web" ]}).

(** What tar writes when it strips a leading slash. *)
Definition tar_warning : string := "tar: Removing leading `/' from member names" +:+ nl.

(** The source file cannot be opened. *)
Definition unreadable : Script :=
  {| dial := None; status := (None, None); containers := (None, None);
     stop := None; remove := None; start := None; pull := None;
     create := (None, None); exec := (None, None);
     open := Some (errorString "open /tmp/agent.tar.gz: no such file or directory");
     runs := [] |}.

(** What the shell writes when the destination is not writable. *)
Definition cat_denied : string := "/bin/sh: can't create /opt/agent.tar.gz: Permission denied" +:+ nl.

(** The status call answers with pid 1234; the helper processes answer
    [rs], in that order. *)
Definition resolving (rs : list ProcResult) : Script :=
  {| dial := None;
     status := (Some (v1.ContainerStatusResponse.mk None (Some {[ "info" := pid_number ]})),
                None);
     containers := (None, None);
     stop := None; remove := None; start := None; pull := None;
     create := (None, None); exec := (None, None); open := None; runs := rs |}.

(** The list call answers [cs] and the status call answers [r]. *)
Definition listing_and_reporting (cs : list (option v1.Container.t))
    (r : v1.ContainerStatusResponse.t) : Script :=
  {| dial := None; status := (Some r, None);
     containers := (Some (v1.ListContainersResponse.mk cs), None);
     stop := None; remove := None; start := None; pull := None;
     create := (None, None); exec := (None, None); open := None; runs := [] |}.

(** The container [abc], as a listing has it, with the label the kubelet
    puts on it. *)
Definition listed_nginx : v1.Container.t :=
  v1.Container.mk "abc" (Some (v1.ContainerMetadata.mk "nginx"))
                  (Some {[ "io.kubernetes.container.name" := "nginx" ]}).

(** The image cannot be pulled. *)
Definition no_registry : Script :=
  {| dial := None; status := (None, None); containers := (None, None);
     stop := None; remove := None; start := None;
     pull := Some (errorString "registry unreachable");
     create := (None, None); exec := (None, None); open := None; runs := [] |}.

(** The container [c0] is created and started and its command prints [ok]
    and exits with 0; stop and remove answer as given. *)
Definition cleaning_up (stopped removed : option error) : Script :=
  {| dial := None; status := (None, None); containers := (None, None);
     stop := stopped; remove := removed; start := None; pull := None;
     create := (Some (v1.CreateContainerResponse.mk "c0"), None);
     exec := (Some (v1.ExecSyncResponse.mk "ok" "" 0), None);
     open := None; runs := [] |}.

(** A configuration that brings its own command. *)
Definition sleeper : containertype.Config.t :=
  containertype.Config.mk "busybox" (Some ["sleep"; "1"]) None None "/".

End double.

(** ** Vocabulary of the statements *)

(** The command [ExecuteAndRemove] puts in its exec request: the
    configuration's own, or the [command] argument when it has none. *)
Definition effective_cmd (cfg : containertype.Config.t) (command : string)
  : option (list string) :=
  match containertype.Config.Cmd cfg with
  | None => Some [command]
  | Some cmd => Some cmd
  end.

Section Vocabulary.

Context {W Conn File float64 : Type} `{!Platform W Conn File float64}.

(** Where both functions of crio-linux.go look for the helper. *)
Definition nsexec_path : string := path_Join [util_GetProgramPath; "bin"; spec_NSExecBin].

(** The argument vectors of the three helper invocations. *)
Definition exec_argv (pid : Z) (command : string) : list string :=
  strings_Split_space ("-t " +:+ pretty pid +:+ " -p -m -n -- /bin/sh -c") ++ [command].

Definition upload_argv (pid : Z) (srcFile dstPath : string) : list string :=
  strings_Split_space ("-t " +:+ pretty pid +:+ " -p -m -- /bin/sh -c")
  ++ ["cat > " +:+ path_Join [dstPath; path_Base srcFile]].

Definition extract_argv (pid : Z) (srcFile dstPath : string) : list string :=
  strings_Split_space ("-t " +:+ pretty pid +:+ " -p -m -- tar -zxf "
                       +:+ path_Join [dstPath; path_Base srcFile] +:+ " -C " +:+ dstPath).

(** The request [ExecuteAndRemove] sends to run [command] in [containerId]. *)
Definition exec_request (containerId : string) (cfg : containertype.Config.t)
    (command : string) (timeout : Z) : v1.ExecSyncRequest.t :=
  v1.ExecSyncRequest.mk containerId (effective_cmd cfg command) (Duration_Seconds_int64 timeout).

End Vocabulary.

(** What [NewClient] dials: the target, and the context, whose cancel
    function is the [handle]-th handed out. *)
Definition dial_target (endpoint : string) : string :=
  if String.eqb endpoint "" then DefaultStateUinxAddress else endpoint.

Definition dial_context (namespace : string) (handle : nat) : context.Context :=
  context.WithCancel
    (context.WithNamespace context.Background
       (if String.eqb namespace "" then DefaultContainerdNameSpace else namespace))
    handle.

(** The subset match of section 3 of the specification: every key of the
    selector is a key of the container's labels, with an equal value. *)
Definition selector_within (S L : option (gmap string string)) : Prop :=
  ∀ key value, go_lookup S key = Some value → go_lookup L key = Some value.

(** What the code takes for a match: the container has a label map at
    all, and the selector lies within it. *)
Definition label_match (S : option (gmap string string)) (c : v1.Container.t) : Prop :=
  v1.Container.Labels c ≠ None ∧ selector_within S (v1.Container.Labels c).

(** [matchLabels] on a container that is there, as a boolean. *)
Definition matches (S : option (gmap string string)) (c : v1.Container.t) : bool :=
  match matchLabels (Some c) S with
  | Returned b => b
  | Panicked _ => false
  end.


(** ** Vocabulary of the further statements *)

(** The number of spaces in a string. *)
Fixpoint spaces (s : string) : nat :=
  match s with
  | EmptyString => 0
  | String c rest =>
      (if Ascii.eqb c (Ascii.ascii_of_nat 32) then 1 else 0) + spaces rest
  end.

(** The helper invocations, the files closed and the RPC calls of a
    trace, oldest first. *)
Definition helper_runs {Conn File : Type} (t : list (Event Conn File))
  : list (string * list string * option File) :=
  omap (λ ev, match ev with
              | EvRun name args stdin => Some (name, args, stdin)
              | _ => None
              end) t.

Definition closed_files {Conn File : Type} (t : list (Event Conn File)) : list File :=
  omap (λ ev, match ev with EvFileClose f => Some f | _ => None end) t.

Definition rpc_calls {Conn File : Type} (t : list (Event Conn File)) : list rpc.Call :=
  omap (λ ev, match ev with EvRPC call => Some call | _ => None end) t.

(** The container carries [name] under the label that
    [GetContainerByName] reads; a container without the label carries the
    empty name. *)
Definition named (name : string) (c : v1.Container.t) : Prop :=
  go_index (v1.Container.Labels c) "io.kubernetes.container.name" = name.

(** A lookup's answer is either a result with the [OK] code or the zero
    [ContainerInfo] with an error and the [ContainerExecFailed] code. *)
Definition result_or_error (r : container.ContainerInfo * option error * CodeType) : Prop :=
  match r with
  | (info, err, code) =>
      (err = None ∧ code = OK)
      ∨ (is_Some err ∧ info = container.zero ∧ code = ContainerExecFailed)
  end.

(** The image [CreateContainer] asks for, and the request it sends once
    the image is pulled: the generic configuration in the runtime's terms. *)
Definition image_of (cfg : containertype.Config.t) : option v1.ImageSpec.t :=
  Some (v1.ImageSpec.mk (containertype.Config.Image cfg)).

Definition create_request (containerName : string) (cfg : containertype.Config.t)
    (host : containertype.HostConfig.t) : v1.CreateContainerRequest.t :=
  v1.CreateContainerRequest.mk
    (Some {| v1.ContainerConfig.Metadata := Some (v1.ContainerMetadata.mk containerName);
             v1.ContainerConfig.Image := image_of cfg;
             v1.ContainerConfig.Command := containertype.Config.Cmd cfg;
             v1.ContainerConfig.Args := containertype.Config.Entrypoint cfg;
             v1.ContainerConfig.WorkingDir := containertype.Config.WorkingDir cfg;
             v1.ContainerConfig.Labels := containertype.Config.Labels cfg;
             v1.ContainerConfig.Linux :=
               Some (v1.LinuxContainerConfig.mk
                       (Some (v1.LinuxContainerResources.mk
                                (containertype.HostConfig.Memory host)))) |})
    (Some v1.PodSandboxConfig.mk).

(** ** Properties of crio-linux.go *)

(** Run the embedding up to the next call on a collaborator, leaving the
    strings and argument vectors as the code builds them. *)
Ltac step :=
  cbv beta iota zeta delta
    [bind run invoke perform log_Infof log_Debugf ret lift deref panic];
  cbn [world trace fired next_handle fst snd negb Nat.eqb Nat.ltb Nat.leb String.length].

Section crio_linux_properties.

Context {W Conn File float64 : Type} `{!Platform W Conn File float64}.
Implicit Types st : St (W:=W) (Conn:=Conn) (File:=File).

(** C3. [crioExecContainer] runs the helper once. If the run fails, the
    error comes back with empty output; if the run succeeds and the error
    stream is not empty, the error stream is the output and the error is
    nil; otherwise the standard output is the output and the error is nil. *)
Theorem crioExecContainer_contract (ctx : context.Context) (pid : Z) (command : string) st
    (r : ProcResult) (w' : W) :
  Cmd_Run nsexec_path (exec_argv pid command) None (world st) = (r, w') →
  (∀ e, proc_err r = Some e →
        (crioExecContainer ctx pid command st).1 = Returned ("", Some e))
  ∧ (proc_err r = None → proc_stderr r ≠ "" →
     (crioExecContainer ctx pid command st).1 = Returned (proc_stderr r, None))
  ∧ (proc_err r = None → proc_stderr r = "" →
     (crioExecContainer ctx pid command st).1 = Returned (proc_stdout r, None)).
Proof.
  unfold crioExecContainer, nsexec_path, exec_argv. step.
  intros ->. step.
  repeat split.
  - intros e ->. reflexivity.
  - intros -> Hne. destruct (proc_stderr r); [congruence | reflexivity].
  - intros -> ->. reflexivity.
Qed.

(** C2. When the upload stage succeeds with an empty error stream and the
    extraction stage exits zero with a non-empty error stream,
    [crioCopyToContainer] returns an error, but the error is built from the
    upload stage's buffer [errMsg], which is empty: the text the extraction
    wrote is not in it. *)
Theorem crioCopyToContainer_extract_stderr_dropped
    (ctx : context.Context) (pid : Z) (srcFile dstPath extractDirName : string)
    (override : bool) st (f : File) (w1 w2 w3 : W) (r1 r2 : ProcResult) :
  os_Open srcFile (world st) = (inr f, w1) →
  Cmd_Run nsexec_path (upload_argv pid srcFile dstPath) (Some f) w1 = (r1, w2) →
  proc_err r1 = None → proc_stderr r1 = "" →
  Cmd_Run nsexec_path (extract_argv pid srcFile dstPath) None w2 = (r2, w3) →
  proc_err r2 = None → proc_stderr r2 ≠ "" →
  (crioCopyToContainer ctx pid srcFile dstPath extractDirName override st).1
  = Returned (Some (errors_New "")).
Proof.
  intros Hopen Hrun1 Herr1 Hmsg1 Hrun2 Herr2 Hmsg2.
  unfold crioCopyToContainer, copy_with_open. step.
  unfold nsexec_path, upload_argv, extract_argv in *.
  rewrite Hopen. step. rewrite Hrun1. step. rewrite Herr1, Hmsg1. step.
  rewrite Hrun2. step. rewrite Herr2.
  destruct (proc_stderr r2); [congruence | reflexivity].
Qed.

End crio_linux_properties.

(** The example of section 8: [echo err 1>&2] exits zero with nothing on
    its standard output. *)
Lemma crioExecContainer_contract_witness :
  (crioExecContainer
     (Platform0:=double.platform (double.running [mkProcResult "" ("err" +:+ nl) None]))
     context.Background 4242 "echo err 1>&2" double.start_state).1
  = Returned ("err" +:+ nl, None).
Proof.
  apply (crioExecContainer_contract
           (Platform0:=double.platform (double.running [mkProcResult "" ("err" +:+ nl) None]))
           context.Background 4242 "echo err 1>&2" double.start_state
           (mkProcResult "" ("err" +:+ nl) None) 1 eq_refl).
  - reflexivity.
  - vm_compute. discriminate.
Defined.

(** The upload is clean; tar exits zero after a warning. *)
Lemma crioCopyToContainer_extract_stderr_dropped_witness :
  (crioCopyToContainer
     (Platform0:=double.platform
        (double.running [mkProcResult "" "" None; mkProcResult "" double.tar_warning None]))
     context.Background 4242 "/tmp/chaosblade.tar.gz" "/opt" "chaosblade" false
     double.start_state).1
  = Returned (Some (errorString ""))
  ∧ errorString "" ≠ errorString double.tar_warning.
Proof.
  split; [| vm_compute; discriminate].
  eapply (crioCopyToContainer_extract_stderr_dropped
            (Platform0:=double.platform
               (double.running [mkProcResult "" "" None;
                                mkProcResult "" double.tar_warning None]))
            context.Background 4242 "/tmp/chaosblade.tar.gz" "/opt" "chaosblade" false
            double.start_state tt 0 1 2).
  - reflexivity.
  - reflexivity.
  - reflexivity.
  - reflexivity.
  - reflexivity.
  - reflexivity.
  - vm_compute. discriminate.
Defined.

(** ** Properties of crio.go *)
Section crio_properties.

Context {W Conn File float64 : Type} `{!Platform W Conn File float64}.
Implicit Types st : St (W:=W) (Conn:=Conn) (File:=File).
Implicit Types c : CRIClient (W:=W) (Conn:=Conn).

(** C8. [GetContainerById] sends one verbose status request. If the call
    errors, or the response or its status is nil, the result is the zero
    [ContainerInfo] with an error and the [ContainerExecFailed] code. If
    the status is there and carries its metadata, the result has the
    status's id as identifier and the metadata's name as name, no error
    and the [OK] code. *)
Theorem GetContainerById_projection c (ctx : context.Context) (containerId : string) st
    (response : option v1.ContainerStatusResponse.t) (err : option error) (w' : W) :
  RuntimeServiceClient.ContainerStatus (runtimeService c) ctx
    (v1.ContainerStatusRequest.mk containerId true) (world st) = ((response, err), w') →
  (∀ e, err = Some e →
        ∃ e', (GetContainerById c ctx containerId st).1
              = Returned (container.zero, Some e', ContainerExecFailed))
  ∧ (err = None →
     response = None ∨ (∃ r, response = Some r ∧ v1.ContainerStatusResponse.Status r = None) →
     ∃ e', (GetContainerById c ctx containerId st).1
           = Returned (container.zero, Some e', ContainerExecFailed))
  ∧ (∀ r s m, err = None → response = Some r →
              v1.ContainerStatusResponse.Status r = Some s →
              v1.ContainerStatus.Metadata s = Some m →
              ∃ info, (GetContainerById c ctx containerId st).1 = Returned (info, None, OK)
                      ∧ container.ContainerId info = v1.ContainerStatus.Id s
                      ∧ container.ContainerName info = v1.ContainerMetadata.Name m
                      ∧ container.Labels info = v1.ContainerStatus.Labels s).
Proof.
  intros Hrpc. unfold GetContainerById. step. rewrite Hrpc. step.
  repeat split.
  - intros e ->. eauto.
  - intros -> [-> | (r & -> & Hs)]; [eauto |]. rewrite Hs. eauto.
  - intros r s m -> -> Hs Hm. rewrite Hs. unfold convertContainerInfo. rewrite Hm.
    eexists. split; [reflexivity |]. repeat split.
Qed.

(** C10. When the status is there but its metadata pointer is nil,
    [GetContainerById] does not return: [convertContainerInfo] reads
    [containerDetail.Metadata.Name] through the nil pointer and panics. *)
Theorem GetContainerById_nil_metadata_panics c (ctx : context.Context) (containerId : string)
    st (r : v1.ContainerStatusResponse.t) (s : v1.ContainerStatus.t) (w' : W) :
  RuntimeServiceClient.ContainerStatus (runtimeService c) ctx
    (v1.ContainerStatusRequest.mk containerId true) (world st) = ((Some r, None), w') →
  v1.ContainerStatusResponse.Status r = Some s →
  v1.ContainerStatus.Metadata s = None →
  (GetContainerById c ctx containerId st).1 = Panicked NilDereference.
Proof.
  intros Hrpc Hs Hm. unfold GetContainerById. step. rewrite Hrpc. step.
  rewrite Hs. unfold convertContainerInfo. rewrite Hm. reflexivity.
Qed.

(** C1. When the status call succeeds, the info map is there and its
    ["info"] entry decodes, but the decoded map has no number under
    ["pid"] (the key is missing, or its value is not a number),
    [GetPidById] does not return a failure: the unchecked type assertion
    [dataMap["pid"].(float64)] panics. *)
Theorem GetPidById_unchecked_assertion_panics c (ctx : context.Context) (containerId : string)
    st (r : v1.ContainerStatusResponse.t) (info : gmap string string)
    (dataMap : option (gmap string (json.Value float64))) (w' : W) :
  RuntimeServiceClient.ContainerStatus (runtimeService c) ctx
    (v1.ContainerStatusRequest.mk containerId true) (world st) = ((Some r, None), w') →
  v1.ContainerStatusResponse.Info r = Some info →
  json_Unmarshal (go_index (Some info) "info") = inr dataMap →
  (∀ f, go_lookup dataMap "pid" ≠ Some (json.Number f)) →
  (GetPidById c ctx containerId st).1
  = Panicked (InterfaceConversion (json.dynamic_type (go_lookup dataMap "pid"))).
Proof.
  intros Hrpc Hinfo Hjson Hpid. unfold GetPidById. step. rewrite Hrpc. step.
  rewrite Hinfo, Hjson.
  destruct (go_lookup dataMap "pid") as [[| b | f | s | l | m] |]; try reflexivity.
  destruct (Hpid f). reflexivity.
Qed.

(** C6. [RemoveContainer] sends a stop request with timeout 15 and, if
    that succeeds, a remove request; nothing else. An error of either
    call ends it with an error that reports the call's error. The [force]
    flag changes nothing: result, world and trace are the same. *)
Theorem RemoveContainer_ignores_force c (ctx : context.Context) (containerId : string)
    (force : bool) st :
  RemoveContainer c ctx containerId force st = RemoveContainer c ctx containerId (negb force) st
  ∧ let stopRequest := v1.StopContainerRequest.mk containerId 15 in
    let removeRequest := v1.RemoveContainerRequest.mk containerId in
    let stopped :=
      RuntimeServiceClient.StopContainer (runtimeService c) ctx stopRequest (world st) in
    let removed :=
      RuntimeServiceClient.RemoveContainer (runtimeService c) ctx removeRequest stopped.2 in
    RemoveContainer c ctx containerId force st =
    match stopped.1.2 with
    | Some e =>
        (Returned (Some (errorString ("failed to stop container " +:+ containerId
                                      +:+ ": " +:+ Error e))),
         {| world := stopped.2;
            trace := trace st ++ [EvRPC (rpc.StopContainer ctx stopRequest)];
            fired := fired st; next_handle := next_handle st |})
    | None =>
        (Returned match removed.1.2 with
                  | Some e => Some (errorString ("failed to remove container " +:+ containerId
                                                 +:+ ": " +:+ Error e))
                  | None => None
                  end,
         {| world := removed.2;
            trace := (trace st ++ [EvRPC (rpc.StopContainer ctx stopRequest)])
                     ++ [EvRPC (rpc.RemoveContainer ctx removeRequest)];
            fired := fired st; next_handle := next_handle st |})
    end.
Proof.
  split; [reflexivity |].
  unfold RemoveContainer. step.
  destruct (RuntimeServiceClient.StopContainer _ _ _ _) as [[r1 [e1 |]] w1]; step;
    [reflexivity |].
  destruct (RuntimeServiceClient.RemoveContainer _ _ _ _) as [[r2 [e2 |]] w2]; reflexivity.
Qed.

End crio_properties.

(** A container [abc] named [nginx], as the runtime reports it. *)
Lemma GetContainerById_projection_witness :
  ∃ info,
    (GetContainerById
       (double.client
          (double.reporting (v1.ContainerStatusResponse.mk (Some double.nginx) None)))
       context.Background "abc" (File:=unit) double.start_state).1
    = Returned (info, None, OK)
    ∧ container.ContainerId info = "abc"
    ∧ container.ContainerName info = "nginx"
    ∧ container.Labels info = Some {[ "app" := "web" ]}.
Proof.
  destruct (GetContainerById_projection
              (double.client
                 (double.reporting (v1.ContainerStatusResponse.mk (Some double.nginx) None)))
              context.Background "abc" double.start_state _ _ _ eq_refl)
    as (_ & _ & Hok).
  apply (Hok (v1.ContainerStatusResponse.mk (Some double.nginx) None) double.nginx
             (v1.ContainerMetadata.mk "nginx")); reflexivity.
Defined.

(** The same container, reported without metadata. *)
Lemma GetContainerById_nil_metadata_panics_witness :
  (GetContainerById
     (double.client
        (double.reporting (v1.ContainerStatusResponse.mk (Some double.anonymous) None)))
     context.Background "abc" (File:=unit) double.start_state).1
  = Panicked NilDereference.
Proof.
  apply (GetContainerById_nil_metadata_panics
           (double.client
              (double.reporting (v1.ContainerStatusResponse.mk (Some double.anonymous) None)))
           context.Background "abc" double.start_state
           (v1.ContainerStatusResponse.mk (Some double.anonymous) None) double.anonymous 0);
    reflexivity.
Defined.

(** A verbose status whose info blob is the empty JSON object. *)
Lemma GetPidById_unchecked_assertion_panics_witness :
  (GetPidById
     (Platform0:=double.platform (double.reporting double.empty_info))
     (double.client (double.reporting double.empty_info))
     context.Background "abc" double.start_state).1
  = Panicked (InterfaceConversion "nil").
Proof.
  rewrite (GetPidById_unchecked_assertion_panics
             (Platform0:=double.platform (double.reporting double.empty_info))
             (double.client (double.reporting double.empty_info))
             context.Background "abc" double.start_state
             double.empty_info {[ "info" := "{}" ]} (Some ∅) 0).
  - reflexivity.
  - reflexivity.
  - reflexivity.
  - reflexivity.
  - intros f. vm_compute. discriminate.
Defined.

(** ** Properties of the ephemeral-container orchestration *)
Section ExecuteAndRemove_properties.

Context {W Conn File float64 : Type} `{!Platform W Conn File float64}.
Implicit Types st : St (W:=W) (Conn:=Conn) (File:=File).
Implicit Types c : CRIClient (W:=W) (Conn:=Conn).

(** C5. When the container was created and started and the exec-sync call
    succeeds with a non-zero exit code, [ExecuteAndRemove] returns the
    identifier [CreateContainer] gave, an error and the
    [ContainerExecFailed] code; the exec-sync call is the last call it
    makes, so the container is neither stopped nor removed. *)
Theorem ExecuteAndRemove_nonzero_exit c (ctx : context.Context)
    (cfg : containertype.Config.t) (hostConfig : option containertype.HostConfig.t)
    (networkConfig : option network.NetworkingConfig) (containerName : string)
    (removed : bool) (timeout : Z) (command : string) (containerInfo : container.ContainerInfo)
    st (containerId : string) st1 (started : option v1.StartContainerResponse.t) (w2 w3 : W)
    (resp : v1.ExecSyncResponse.t) :
  CreateContainer c ctx containerName (Some cfg) hostConfig networkConfig st
  = (Returned (containerId, None), st1) →
  RuntimeServiceClient.StartContainer (runtimeService c) ctx
    (v1.StartContainerRequest.mk containerId) (world st1) = ((started, None), w2) →
  RuntimeServiceClient.ExecSync (runtimeService c) ctx
    (exec_request containerId cfg command timeout) w2 = ((Some resp, None), w3) →
  v1.ExecSyncResponse.ExitCode resp ≠ 0%Z →
  ∃ e config',
    ExecuteAndRemove c ctx (Some cfg) hostConfig networkConfig containerName removed timeout
                     command containerInfo st
    = (Returned (containerId, "", Some e, ContainerExecFailed, config'),
       {| world := w3;
          trace := trace st1
                   ++ [EvRPC (rpc.StartContainer ctx (v1.StartContainerRequest.mk containerId));
                       EvRPC (rpc.ExecSync ctx (exec_request containerId cfg command timeout))];
          fired := fired st1; next_handle := next_handle st1 |}).
Proof.
  intros Hcreate Hstart Hexec Hcode. unfold exec_request in *.
  unfold ExecuteAndRemove. step. rewrite Hcreate. step.
  rewrite Hstart. step.
  assert (Hcmd : containertype.Config.Cmd
            match containertype.Config.Cmd cfg with
            | None =>
                {| containertype.Config.Image := containertype.Config.Image cfg;
                   containertype.Config.Cmd := Some [command];
                   containertype.Config.Entrypoint := containertype.Config.Entrypoint cfg;
                   containertype.Config.Labels := containertype.Config.Labels cfg;
                   containertype.Config.WorkingDir := containertype.Config.WorkingDir cfg |}
            | Some _ => cfg
            end = effective_cmd cfg command).
  { unfold effective_cmd. destruct (containertype.Config.Cmd cfg) eqn:E; [exact E | reflexivity]. }
  rewrite Hcmd, Hexec. step.
  destruct (Z.eqb_spec (v1.ExecSyncResponse.ExitCode resp) 0) as [E | _]; [contradiction |].
  cbn [negb]. rewrite <- app_assoc. eauto.
Qed.

(** C9. When the container was created but the start call fails,
    [ExecuteAndRemove] returns the empty string as identifier, whatever
    identifier [CreateContainer] gave. *)
Theorem ExecuteAndRemove_start_failure c (ctx : context.Context)
    (config : option containertype.Config.t) (hostConfig : option containertype.HostConfig.t)
    (networkConfig : option network.NetworkingConfig) (containerName : string)
    (removed : bool) (timeout : Z) (command : string) (containerInfo : container.ContainerInfo)
    st (containerId : string) st1 (started : option v1.StartContainerResponse.t) (w2 : W)
    (e : error) :
  CreateContainer c ctx containerName config hostConfig networkConfig st
  = (Returned (containerId, None), st1) →
  RuntimeServiceClient.StartContainer (runtimeService c) ctx
    (v1.StartContainerRequest.mk containerId) (world st1) = ((started, Some e), w2) →
  (ExecuteAndRemove c ctx config hostConfig networkConfig containerName removed timeout
                    command containerInfo st).1
  = Returned ("", "", Some (errorString ("StartContainer error:" +:+ Error e)),
              CreateContainerFailed, config).
Proof.
  intros Hcreate Hstart.
  unfold ExecuteAndRemove. step. rewrite Hcreate. step. rewrite Hstart. reflexivity.
Qed.

End ExecuteAndRemove_properties.

(** The container [c0] is created and started; its command exits with 1. *)
Lemma ExecuteAndRemove_nonzero_exit_witness :
  ∃ e config' st',
    ExecuteAndRemove (Platform0:=double.platform double.exit_one)
                     (double.client double.exit_one) context.Background
                     (Some double.busybox) (Some double.unlimited) None "probe" true
                     3000000000 "false" container.zero double.start_state
    = (Returned ("c0", "", Some e, ContainerExecFailed, config'), st')
    ∧ last (trace st')
      = Some (EvRPC (rpc.ExecSync context.Background
                                  (v1.ExecSyncRequest.mk "c0" (Some ["false"]) 3))).
Proof.
  destruct (ExecuteAndRemove_nonzero_exit (Platform0:=double.platform double.exit_one)
              (double.client double.exit_one) context.Background double.busybox
              (Some double.unlimited) None "probe" true 3000000000
              "false" container.zero double.start_state "c0" _
              (Some v1.StartContainerResponse.mk) 0 0 (v1.ExecSyncResponse.mk "" "boom" 1)
              eq_refl eq_refl eq_refl)
    as (e & config' & Hrun).
  - vm_compute. discriminate.
  - exists e, config'. eexists. split; [exact Hrun | reflexivity].
Defined.

(** The container [c0] is created; the runtime refuses to start it. *)
Lemma ExecuteAndRemove_start_failure_witness :
  ∃ e code config',
    (ExecuteAndRemove (Platform0:=double.platform double.not_started)
                      (double.client double.not_started) context.Background
                      (Some double.busybox) (Some double.unlimited) None "probe" true
                      3000000000 "false" container.zero double.start_state).1
    = Returned ("", "", Some e, code, config')
    ∧ (CreateContainer (double.client double.not_started) context.Background "probe"
                       (Some double.busybox) (Some double.unlimited) None (File:=unit)
                       double.start_state).1
      = Returned ("c0", None).
Proof.
  eexists _, _, _. split; [| reflexivity].
  apply (ExecuteAndRemove_start_failure (Platform0:=double.platform double.not_started)
           (double.client double.not_started) context.Background (Some double.busybox)
           (Some double.unlimited) None "probe" true 3000000000 "false" container.zero
           double.start_state "c0" _ (Some v1.StartContainerResponse.mk) 0
           (errorString "rpc error: code = Unknown desc = container not ready")
           eq_refl eq_refl).
Defined.

(** ** Properties of the connection *)

(** A context without a deadline never reports that its deadline passed. *)
Lemma Err_without_deadline (fired : gset nat) (now : Z) (ctx : context.Context) :
  context.Deadline ctx = None → context.Err fired now ctx ≠ Some DeadlineExceeded.
Proof.
  induction ctx as [| parent IH ns | parent IH h | parent IH d]; simpl; intros Hd.
  - discriminate.
  - auto.
  - destruct (context.Err fired now parent) as [e |] eqn:E; [auto |].
    destruct (decide (h ∈ fired)); discriminate.
  - destruct (context.Deadline parent); discriminate.
Qed.

Section NewClient_properties.

Context {W Conn File float64 : Type} `{!Platform W Conn File float64}.
Implicit Types st : St (W:=W) (Conn:=Conn) (File:=File).

(** C7. The context [NewClient] dials with is built from
    [context.Background] by [WithNamespace] and [WithCancel] only: it has
    no deadline. Whatever error the dial returns, a timeout included, the
    comparison of [ctx.Err()] with [context.DeadlineExceeded] fails, and
    the error returned is the plain one, built with [%v] from the dial
    error's text. *)
Theorem NewClient_dials_without_deadline (endpoint namespace : string) st
    (conn : option Conn) (e : error) (w' : W) :
  grpc_DialContext (dial_context namespace (next_handle st)) (dial_target endpoint)
                   [grpc.WithInsecure; grpc.WithBlock] (world st) = ((conn, Some e), w') →
  context.Deadline (dial_context namespace (next_handle st)) = None
  ∧ NewClient endpoint namespace st
    = (Returned (None, Some (errorString ("failed to connect to crio endpoint "
                                          +:+ dial_target endpoint +:+ ": " +:+ Error e))),
       {| world := w';
          trace := trace st ++ [EvDial (dial_context namespace (next_handle st))
                                       (dial_target endpoint)
                                       [grpc.WithInsecure; grpc.WithBlock]];
          fired := fired st; next_handle := S (next_handle st) |}).
Proof.
  intros Hdial. split; [reflexivity |].
  unfold NewClient, context_WithCancel, ctx_Err. step.
  unfold dial_context, dial_target in *. rewrite Hdial. step.
  destruct (decide (context.Err (fired st) (clock w') _ = Some DeadlineExceeded))
    as [Herr | _]; [| reflexivity].
  exfalso. revert Herr. apply Err_without_deadline. reflexivity.
Qed.

End NewClient_properties.

(** Nothing listens on the default socket and the transport gives up with
    a timeout of its own. *)
Lemma NewClient_dials_without_deadline_witness :
  ∃ e, (NewClient (Platform0:=double.platform (double.unreachable DeadlineExceeded)) "" ""
                  double.start_state).1
       = Returned (None, Some e)
       ∧ Error e = "failed to connect to crio endpoint unix:///var/run/crio/crio.sock: "
                   +:+ "context deadline exceeded"
       ∧ Unwrap e = None.
Proof.
  destruct (NewClient_dials_without_deadline
              (Platform0:=double.platform (double.unreachable DeadlineExceeded)) "" ""
              double.start_state None DeadlineExceeded 0 eq_refl) as [_ Hrun].
  eexists. split; [rewrite Hrun; reflexivity |]. split; reflexivity.
Defined.

(** ** Properties of the label selector *)

Lemma go_range_lookup (S : option (gmap string string)) (key value : string) :
  (key, value) ∈ go_range S ↔ go_lookup S key = Some value.
Proof.
  destruct S as [m |]; simpl.
  - apply elem_of_map_to_list.
  - split; [intros Hin; inversion Hin | discriminate].
Qed.

(** The loop answers true exactly when every entry it visits is in the
    labels; the order of the visit does not matter. *)
Lemma matchLabels_range_true (L : option (gmap string string))
    (entries : list (string * string)) :
  matchLabels_range L entries = true
  ↔ ∀ key value, (key, value) ∈ entries → go_lookup L key = Some value.
Proof.
  induction entries as [| [k v] rest IH]; simpl.
  - split; [| reflexivity]. intros _ key value Hin. inversion Hin.
  - destruct (go_lookup L k) as [cv |] eqn:Hk.
    + destruct (String.eqb_spec cv v) as [-> | Hne]; simpl.
      * rewrite IH. split.
        -- intros Hrest key value Hin. apply elem_of_cons in Hin as [[= -> ->] | Hin]; auto.
        -- intros Hall key value Hin. apply Hall. by apply list_elem_of_further.
      * split; [discriminate |]. intros Hall.
        specialize (Hall k v (list_elem_of_here _ _)). congruence.
    + split; [discriminate |]. intros Hall.
      specialize (Hall k v (list_elem_of_here _ _)). congruence.
Qed.

Lemma matches_true (S : option (gmap string string)) (c : v1.Container.t) :
  matches S c = true ↔ label_match S c.
Proof.
  unfold matches, matchLabels, label_match, selector_within.
  destruct (v1.Container.Labels c) as [L |] eqn:HL.
  - rewrite matchLabels_range_true. setoid_rewrite go_range_lookup.
    split; [intros Hall; split; [discriminate | exact Hall] | intros [_ Hall]; exact Hall].
  - split; [discriminate | intros [Hnil _]; contradiction].
Qed.

Lemma matchLabels_matches (S : option (gmap string string)) (c : v1.Container.t) :
  matchLabels (Some c) S = Returned (matches S c).
Proof. unfold matches, matchLabels. destruct (v1.Container.Labels c); reflexivity. Qed.

(** On a listing without nil entries the loop keeps the matching
    containers, in listing order. *)
Lemma filter_by_labels_listing (cs : list v1.Container.t) (S : option (gmap string string))
    (filtered : list (option v1.Container.t)) :
  filter_by_labels (Some <$> cs) S filtered
  = Returned (filtered ++ (Some <$> filter (λ c, matches S c = true) cs)).
Proof.
  revert filtered. induction cs as [| c cs IH]; intros filtered.
  - simpl. by rewrite app_nil_r.
  - cbn [fmap list_fmap filter_by_labels]. rewrite matchLabels_matches. destruct (matches S c) eqn:Hm.
    + rewrite IH, filter_cons_True by done. by rewrite fmap_cons, <- app_assoc.
    + rewrite IH, filter_cons_False by (rewrite Hm; discriminate). done.
Qed.

Lemma filter_matches_nil (cs : list v1.Container.t) (S : option (gmap string string)) :
  filter (λ c, matches S c = true) cs = [] ↔ ∀ x, x ∈ cs → ¬ label_match S x.
Proof.
  induction cs as [| c cs IH].
  - split; [| reflexivity]. intros _ x Hin. inversion Hin.
  - destruct (matches S c) eqn:Hm.
    + rewrite filter_cons_True by done. split; [discriminate |].
      intros Hall. destruct (Hall c (list_elem_of_here _ _)). by apply matches_true.
    + rewrite filter_cons_False by (rewrite Hm; discriminate). rewrite IH. split.
      * intros Hall x Hin. apply elem_of_cons in Hin as [-> | Hin]; [| auto].
        rewrite <- matches_true, Hm. discriminate.
      * intros Hall x Hin. apply Hall. by apply list_elem_of_further.
Qed.

Lemma filter_matches_first (cs pre post : list v1.Container.t) (x : v1.Container.t)
    (S : option (gmap string string)) :
  cs = pre ++ x :: post → (∀ y, y ∈ pre → ¬ label_match S y) → label_match S x →
  filter (λ c, matches S c = true) cs = x :: filter (λ c, matches S c = true) post.
Proof.
  intros -> Hpre Hx. rewrite filter_app.
  apply filter_matches_nil in Hpre. rewrite Hpre. simpl.
  apply filter_cons_True. by apply matches_true.
Qed.

Section GetContainerByLabelSelector_properties.

Context {W Conn : Type}.
Implicit Types c : CRIClient (W:=W) (Conn:=Conn).

(** C4, as the code has it. A container matches when it has a label map
    and every key of the selector is in it with an equal value; without a
    label map it never matches, not even the empty selector. On a listing
    that succeeds and has no nil entries, [GetContainerByLabelSelector]
    fails with [ContainerExecFailed] exactly when no container matches,
    and returns the first match in listing order when that one carries
    its metadata. *)
Theorem GetContainerByLabelSelector_first_match {File : Type} c
    (S : option (gmap string string)) (st : St (W:=W) (Conn:=Conn) (File:=File))
    (resp : v1.ListContainersResponse.t) (cs : list v1.Container.t) (w' : W) :
  RuntimeServiceClient.ListContainers (runtimeService c) (Ctx c)
    (v1.ListContainersRequest.mk None) (world st) = ((Some resp, None), w') →
  v1.ListContainersResponse.Containers resp = Some <$> cs →
  (∀ x, matchLabels (Some x) S = Returned true ↔ label_match S x)
  ∧ ((∀ x, x ∈ cs → ¬ label_match S x)
     ↔ ∃ e, (GetContainerByLabelSelector c S st).1
            = Returned (container.zero, Some e, ContainerExecFailed))
  ∧ (∀ pre x post m,
       cs = pre ++ x :: post → (∀ y, y ∈ pre → ¬ label_match S y) → label_match S x →
       v1.Container.Metadata x = Some m →
       (GetContainerByLabelSelector c S st).1
       = Returned ({| container.ContainerId := v1.Container.Id x;
                      container.ContainerName := v1.ContainerMetadata.Name m;
                      container.Labels := v1.Container.Labels x;
                      container.Spec := None |}, None, OK)).
Proof.
  intros Hrpc Hcs.
  assert (Hrun : (GetContainerByLabelSelector c S st).1
                 = match filter (λ x : v1.Container.t, matches S x = true) cs with
                   | [] => Returned (container.zero,
                                     Some (errorString ("no containers found: " +:+ fmt_v None)),
                                     ContainerExecFailed)
                   | first :: _ =>
                       match convertContainerInfo2 (Some first) with
                       | Returned info => Returned (info, None, OK)
                       | Panicked p => Panicked p
                       end
                   end).
  { unfold GetContainerByLabelSelector. step. rewrite Hrpc. step.
    rewrite Hcs, filter_by_labels_listing. cbn [app].
    destruct (filter _ cs) as [| first rest]; [reflexivity |]. cbn [fmap list_fmap].
    destruct (convertContainerInfo2 (Some first)); reflexivity. }
  split; [| split].
  - intros x. rewrite matchLabels_matches, <- matches_true. split; congruence.
  - rewrite <- filter_matches_nil, Hrun. split.
    + intros ->. eauto.
    + destruct (filter _ cs) as [| first rest]; [reflexivity |].
      intros [e He]. destruct (convertContainerInfo2 (Some first)); discriminate.
  - intros pre x post m Hsplit Hpre Hx Hm.
    rewrite Hrun, (filter_matches_first cs pre post x S Hsplit Hpre Hx).
    unfold convertContainerInfo2. rewrite Hm. reflexivity.
Qed.

End GetContainerByLabelSelector_properties.

(** C4 as stated fails on a container without a label map: the empty
    selector lies within its labels, vacuously, and yet [matchLabels]
    rejects it, so a listing of that container alone finds nothing. *)
Lemma matchLabels_nil_labels_counterexample :
  selector_within (Some ∅) (v1.Container.Labels double.unlabelled)
  ∧ matchLabels (Some double.unlabelled) (Some ∅) = Returned false
  ∧ (GetContainerByLabelSelector
       (double.client (double.listing [Some double.unlabelled])) (Some ∅)
       (File:=unit) double.start_state).1
    = Returned (container.zero, Some (errorString "no containers found: <nil>"),
                ContainerExecFailed).
Proof.
  split; [| split; reflexivity].
  intros key value Hin. simpl in Hin. rewrite lookup_empty in Hin. discriminate.
Qed.

(** Of two web servers behind a container without labels and a database,
    the selector [app=web] finds the first. *)
Lemma GetContainerByLabelSelector_first_match_witness :
  (GetContainerByLabelSelector
     (double.client
        (double.listing [Some double.unlabelled; Some double.db;
                         Some double.web1; Some double.web2]))
     (Some {[ "app" := "web" ]}) (File:=unit) double.start_state).1
  = Returned ({| container.ContainerId := "c3";
                 container.ContainerName := "nginx-1";
                 container.Labels := Some {[ "app" := "web"; "tier" := "front" ]};
                 container.Spec := None |}, None, OK).
Proof.
  destruct (GetContainerByLabelSelector_first_match
              (double.client
                 (double.listing [Some double.unlabelled; Some double.db;
                                  Some double.web1; Some double.web2]))
              (Some {[ "app" := "web" ]}) (File:=unit) double.start_state
              (v1.ListContainersResponse.mk
                 [Some double.unlabelled; Some double.db; Some double.web1; Some double.web2])
              [double.unlabelled; double.db; double.web1; double.web2] 0
              eq_refl eq_refl) as (_ & _ & Hfirst).
  apply (Hfirst [double.unlabelled; double.db] double.web1 [double.web2]
                (v1.ContainerMetadata.mk "nginx-1")).
  - reflexivity.
  - intros y Hy. rewrite <- matches_true.
    apply elem_of_cons in Hy as [-> | Hy]; [vm_compute; discriminate |].
    apply elem_of_cons in Hy as [-> | Hy]; [vm_compute; discriminate |].
    inversion Hy.
  - apply matches_true. vm_compute. reflexivity.
  - reflexivity.
Defined.

(** ** The embedding at work *)

(** [strings.Split] keeps the empty fields. *)
Example strings_Split_space_fields :
  strings_Split_space "" = [""]
  ∧ strings_Split_space "a  b " = ["a"; ""; "b"; ""].
Proof. split; reflexivity. Qed.

(** The argument vector of an exec invocation. *)
Example exec_argv_4242 :
  exec_argv 4242 "ls /"
  = ["-t"; "4242"; "-p"; "-m"; "-n"; "--"; "/bin/sh"; "-c"; "ls /"].
Proof. vm_compute. reflexivity. Qed.

(** A destination path with a space in it is split into two arguments of
    the tar invocation. *)
Example extract_argv_with_space :
  extract_argv (Platform0:=double.platform (double.running [])) 7 "agent.tar.gz" "/my dir"
  = ["-t"; "7"; "-p"; "-m"; "--"; "tar"; "-zxf"; "/my"; "dir/agent.tar.gz"; "-C"; "/my"; "dir"].
Proof. vm_compute. reflexivity. Qed.

(** A numeric pid is returned with the [OK] code; a pid that is a string
    ends the call in a panic. *)
Example GetPidById_number :
  (GetPidById
     (Platform0:=double.platform
        (double.reporting
           (v1.ContainerStatusResponse.mk None (Some {[ "info" := double.pid_number ]}))))
     (double.client
        (double.reporting
           (v1.ContainerStatusResponse.mk None (Some {[ "info" := double.pid_number ]}))))
     context.Background "abc" double.start_state).1
  = Returned (1234%Z, None, OK).
Proof. vm_compute. reflexivity. Qed.

Example GetPidById_string :
  (GetPidById
     (Platform0:=double.platform
        (double.reporting
           (v1.ContainerStatusResponse.mk None (Some {[ "info" := double.pid_string ]}))))
     (double.client
        (double.reporting
           (v1.ContainerStatusResponse.mk None (Some {[ "info" := double.pid_string ]}))))
     context.Background "abc" double.start_state).1
  = Panicked (InterfaceConversion "string").
Proof. vm_compute. reflexivity. Qed.

(** A whole copy: the trace of a run in which both stages are clean. *)
Example crioCopyToContainer_clean_run :
  crioCopyToContainer
    (Platform0:=double.platform
       (double.running [mkProcResult "" "" None; mkProcResult "" "" None]))
    context.Background 7 "agent.tar.gz" "/opt" "agent" false double.start_state
  = (Returned None,
     {| world := 2;
        trace :=
          [EvLog Info ("run copy cmd: /opt/chaosblade/bin/nsexec -t 7 -p -m -- /bin/sh -c "
                       +:+ "cat > /opt/agent.tar.gz");
           EvOpen "agent.tar.gz";
           EvRun "/opt/chaosblade/bin/nsexec"
                 ["-t"; "7"; "-p"; "-m"; "--"; "/bin/sh"; "-c"; "cat > /opt/agent.tar.gz"]
                 (Some tt);
           EvLog Debug "Command Result, output: , errMsg: ,  err: <nil>";
           EvLog Info ("run tar cmd: /opt/chaosblade/bin/nsexec -t 7 -p -m -- "
                       +:+ "tar -zxf /opt/agent.tar.gz -C /opt");
           EvRun "/opt/chaosblade/bin/nsexec"
                 ["-t"; "7"; "-p"; "-m"; "--"; "tar"; "-zxf"; "/opt/agent.tar.gz"; "-C"; "/opt"]
                 None;
           EvLog Debug "Tar Command Result, output: , errMsg: ,  err: <nil>";
           EvFileClose tt];
        fired := ∅; next_handle := 1 |}).
Proof. vm_compute. reflexivity. Qed.

(** A whole orchestration that succeeds: create, start, exec, stop with
    timeout 10, remove. *)
Example ExecuteAndRemove_calls :
  let s := double.orchestrating None (Some (v1.ExecSyncResponse.mk "ok" "" 0), None) in
  let run := ExecuteAndRemove (Platform0:=double.platform s) (double.client s)
               context.Background (Some double.busybox) (Some double.unlimited) None
               "probe" true 3000000000 "true" container.zero double.start_state in
  run.1 = Returned ("c0", "ok", None, OK,
                    Some (containertype.Config.mk "busybox" (Some ["true"]) None None "/"))
  ∧ length (trace run.2) = 7
  ∧ drop 5 (trace run.2)
    = [EvRPC (rpc.StopContainer context.Background (v1.StopContainerRequest.mk "c0" 10));
       EvRPC (rpc.RemoveContainer context.Background (v1.RemoveContainerRequest.mk "c0"))].
Proof. vm_compute. repeat split; reflexivity. Qed.

(** ** Further properties of crio-linux.go *)

(** *** Splitting on spaces *)

Lemma strings_Split_space_cons (s : string) :
  ∃ first others, strings_Split_space s = first :: others.
Proof.
  destruct s as [| c rest]; simpl; [eauto |].
  destruct (Ascii.eqb c _); [eauto |].
  destruct (strings_Split_space rest); eauto.
Qed.

Lemma spaces_app (a b : string) : spaces (a +:+ b) = spaces a + spaces b.
Proof. induction a as [| c a IH]; simpl; [reflexivity |]. rewrite IH. lia. Qed.

(** A word without spaces, a space, and the rest: the word is the first
    field. *)
Lemma strings_Split_space_word (w rest : string) :
  spaces w = 0 →
  strings_Split_space (w +:+ " " +:+ rest) = w :: strings_Split_space rest.
Proof.
  induction w as [| c w IH]; simpl; intros Hw; [reflexivity |].
  destruct (Ascii.eqb c _); [discriminate |].
  rewrite IH by exact Hw. reflexivity.
Qed.



(** *** Decimal numerals have no spaces *)

Lemma pretty_N_char_no_space (x : N) :
  Ascii.eqb (pretty_N_char x) (Ascii.ascii_of_nat 32) = false.
Proof. unfold pretty_N_char. by repeat case_match. Qed.

Lemma pretty_N_go_no_space (x : N) (s : string) :
  spaces s = 0 → spaces (pretty_N_go x s) = 0.
Proof.
  revert s. induction (N.lt_wf_0 x) as [x _ IH]; intros s Hs.
  assert (x = 0 ∨ 0 < x)%N as [-> | Hx] by lia.
  - by rewrite pretty_N_go_0.
  - rewrite pretty_N_go_step by done. apply IH.
    + by apply N.div_lt.
    + simpl. by rewrite pretty_N_char_no_space.
Qed.

Lemma pretty_Z_no_space (pid : Z) : spaces (pretty pid) = 0.
Proof.
  assert (HN : ∀ n : N, spaces (pretty n) = 0).
  { intros n. unfold pretty, pretty_N. case_decide; [reflexivity |].
    by apply pretty_N_go_no_space. }
  destruct pid as [| p | p]; [reflexivity | apply HN |].
  change (pretty (Z.neg p)) with ("-" +:+ pretty (N.pos p)).
  rewrite spaces_app, HN. reflexivity.
Qed.

(** *** The argument vectors *)

Lemma exec_argv_eq (pid : Z) (command : string) :
  exec_argv pid command
  = ["-t"; pretty pid; "-p"; "-m"; "-n"; "--"; "/bin/sh"; "-c"; command].
Proof.
  unfold exec_argv.
  change ("-t " +:+ pretty pid +:+ " -p -m -n -- /bin/sh -c")
    with ("-t" +:+ " " +:+ (pretty pid +:+ " " +:+ "-p -m -n -- /bin/sh -c")).
  rewrite strings_Split_space_word by reflexivity.
  rewrite strings_Split_space_word by apply pretty_Z_no_space. reflexivity.
Qed.

Section argv_properties.

Context {W Conn File float64 : Type} `{!Platform W Conn File float64}.



End argv_properties.




(** *** Runs of the helper *)

Ltac step_run := step; cbn [proc_err proc_stderr proc_stdout]; step.

Ltac traces :=
  unfold helper_runs, closed_files, rpc_calls;
  rewrite ?omap_app; cbn [omap list_omap app]; rewrite ?app_nil_r.

Section helper_properties.

Context {W Conn File float64 : Type} `{!Platform W Conn File float64}.
Implicit Types st : St (W:=W) (Conn:=Conn) (File:=File).

(** X4. Whatever the helper answers, [crioExecContainer] runs it exactly
    once, without standard input, on the vector of X1, and makes no RPC
    call; the world it leaves is the one the run left. *)
Theorem crioExecContainer_single_run (ctx : context.Context) (pid : Z) (command : string) st :
  helper_runs (trace (crioExecContainer ctx pid command st).2)
  = helper_runs (trace st)
    ++ [(nsexec_path, ["-t"; pretty pid; "-p"; "-m"; "-n"; "--"; "/bin/sh"; "-c"; command],
         None)]
  ∧ rpc_calls (trace (crioExecContainer ctx pid command st).2) = rpc_calls (trace st)
  ∧ world (crioExecContainer ctx pid command st).2
    = (Cmd_Run nsexec_path (exec_argv pid command) None (world st)).2.
Proof.
  rewrite <- exec_argv_eq.
  unfold crioExecContainer, nsexec_path, exec_argv. step.
  destruct (Cmd_Run _ _ None _) as [[out msg [e |]] w]; step_run;
    [| destruct msg]; step_run; traces; done.
Qed.

(** X5. When the source file cannot be opened, [crioCopyToContainer]
    returns the error of [os.Open] as it is and runs no helper. *)
Theorem crioCopyToContainer_open_failure (ctx : context.Context) (pid : Z)
    (srcFile dstPath extractDirName : string) (override : bool) st (e : error) (w1 : W) :
  os_Open srcFile (world st) = (inl e, w1) →
  (crioCopyToContainer ctx pid srcFile dstPath extractDirName override st).1
  = Returned (Some e)
  ∧ helper_runs (trace (crioCopyToContainer ctx pid srcFile dstPath extractDirName
                                            override st).2)
    = helper_runs (trace st)
  ∧ world (crioCopyToContainer ctx pid srcFile dstPath extractDirName override st).2 = w1.
Proof.
  intros Hopen. unfold crioCopyToContainer. step. rewrite Hopen. step.
  traces. done.
Qed.

(** X6. When the upload stage fails, by the error of its run or, after a
    clean exit, by text on its error stream, [crioCopyToContainer] returns
    that error, respectively an error made of that text, and the tar stage
    is never run: the upload is the only helper invocation. *)
Theorem crioCopyToContainer_upload_failure (ctx : context.Context) (pid : Z)
    (srcFile dstPath extractDirName : string) (override : bool) st (f : File) (w1 w2 : W)
    (r1 : ProcResult) :
  os_Open srcFile (world st) = (inr f, w1) →
  Cmd_Run nsexec_path (upload_argv pid srcFile dstPath) (Some f) w1 = (r1, w2) →
  proc_err r1 ≠ None ∨ proc_stderr r1 ≠ "" →
  (crioCopyToContainer ctx pid srcFile dstPath extractDirName override st).1
  = Returned (Some match proc_err r1 with
                   | Some e => e
                   | None => errors_New (proc_stderr r1)
                   end)
  ∧ helper_runs (trace (crioCopyToContainer ctx pid srcFile dstPath extractDirName
                                            override st).2)
    = helper_runs (trace st) ++ [(nsexec_path, upload_argv pid srcFile dstPath, Some f)].
Proof.
  intros Hopen Hrun Hfail. unfold crioCopyToContainer, copy_with_open. step.
  unfold nsexec_path, upload_argv in *. rewrite Hopen. step. rewrite Hrun. step.
  destruct r1 as [out msg [e |]]; cbn [proc_err proc_stderr proc_stdout] in *; step_run.
  - traces. done.
  - destruct msg; [destruct Hfail; congruence |]. step_run. traces. done.
Qed.

(** X7. Once the source file is open, [crioCopyToContainer] returns nil
    exactly when both stages run without error and leave both error
    streams empty. *)
Theorem crioCopyToContainer_success_iff (ctx : context.Context) (pid : Z)
    (srcFile dstPath extractDirName : string) (override : bool) st (f : File)
    (w1 w2 w3 : W) (r1 r2 : ProcResult) :
  os_Open srcFile (world st) = (inr f, w1) →
  Cmd_Run nsexec_path (upload_argv pid srcFile dstPath) (Some f) w1 = (r1, w2) →
  Cmd_Run nsexec_path (extract_argv pid srcFile dstPath) None w2 = (r2, w3) →
  (crioCopyToContainer ctx pid srcFile dstPath extractDirName override st).1 = Returned None
  ↔ proc_err r1 = None ∧ proc_stderr r1 = "" ∧ proc_err r2 = None ∧ proc_stderr r2 = "".
Proof.
  intros Hopen Hrun1 Hrun2. unfold crioCopyToContainer, copy_with_open. step.
  unfold nsexec_path, upload_argv, extract_argv in *.
  rewrite Hopen. step. rewrite Hrun1. step.
  destruct r1 as [out1 msg1 [e1 |]]; step_run.
  { split; [discriminate | intros (? & _); discriminate]. }
  destruct msg1; step_run.
  2: { split; [discriminate | intros (_ & ? & _); discriminate]. }
  rewrite Hrun2. step_run.
  destruct r2 as [out2 msg2 [e2 |]]; step_run.
  { split; [discriminate | intros (_ & _ & ? & _); discriminate]. }
  destruct msg2; step_run.
  - split; [done | reflexivity].
  - split; [discriminate | intros (_ & _ & _ & ?); discriminate].
Qed.

(** X8. Once the source file is open, [crioCopyToContainer] closes it
    exactly once on every path, as the last thing it does, and never runs
    the helper more than twice. *)
Theorem crioCopyToContainer_closes_file (ctx : context.Context) (pid : Z)
    (srcFile dstPath extractDirName : string) (override : bool) st (f : File) (w1 : W) :
  os_Open srcFile (world st) = (inr f, w1) →
  closed_files (trace (crioCopyToContainer ctx pid srcFile dstPath extractDirName
                                           override st).2)
  = closed_files (trace st) ++ [f]
  ∧ last (trace (crioCopyToContainer ctx pid srcFile dstPath extractDirName override st).2)
    = Some (EvFileClose f)
  ∧ (length (helper_runs (trace (crioCopyToContainer ctx pid srcFile dstPath extractDirName
                                                     override st).2))
     ≤ length (helper_runs (trace st)) + 2)%nat.
Proof.
  intros Hopen. unfold crioCopyToContainer, copy_with_open. step. rewrite Hopen. step.
  destruct (Cmd_Run _ _ (Some f) w1) as [[out1 msg1 [e1 |]] w2]; step_run;
    [| destruct msg1; step_run;
       [destruct (Cmd_Run _ _ None w2) as [[out2 msg2 [e2 |]] w3]; step_run;
        [| destruct msg2; step_run] |]];
    (split; [traces; done | split; [apply last_snoc |]]);
    traces; rewrite ?length_app; simpl; lia.
Qed.

End helper_properties.

Lemma crioCopyToContainer_open_failure_witness :
  (crioCopyToContainer (Platform0:=double.platform double.unreadable) context.Background 7
                       "/tmp/agent.tar.gz" "/opt" "agent" false double.start_state).1
  = Returned (Some (errorString "open /tmp/agent.tar.gz: no such file or directory")).
Proof.
  apply (crioCopyToContainer_open_failure (Platform0:=double.platform double.unreadable)
           context.Background 7 "/tmp/agent.tar.gz" "/opt" "agent" false double.start_state
           (errorString "open /tmp/agent.tar.gz: no such file or directory") 0 eq_refl).
Defined.

Lemma crioCopyToContainer_upload_failure_witness :
  (crioCopyToContainer
     (Platform0:=double.platform (double.running [mkProcResult "" double.cat_denied None]))
     context.Background 7 "/tmp/agent.tar.gz" "/opt" "agent" false double.start_state).1
  = Returned (Some (errorString double.cat_denied)).
Proof.
  apply (crioCopyToContainer_upload_failure
           (Platform0:=double.platform (double.running [mkProcResult "" double.cat_denied None]))
           context.Background 7 "/tmp/agent.tar.gz" "/opt" "agent" false double.start_state
           tt 0 1 (mkProcResult "" double.cat_denied None) eq_refl eq_refl).
  right. vm_compute. discriminate.
Defined.

Lemma crioCopyToContainer_success_iff_witness :
  (crioCopyToContainer
     (Platform0:=double.platform
        (double.running [mkProcResult "" "" None; mkProcResult "" "" None]))
     context.Background 7 "/tmp/agent.tar.gz" "/opt" "agent" false double.start_state).1
  = Returned None.
Proof.
  apply (crioCopyToContainer_success_iff
           (Platform0:=double.platform
              (double.running [mkProcResult "" "" None; mkProcResult "" "" None]))
           context.Background 7 "/tmp/agent.tar.gz" "/opt" "agent" false double.start_state
           tt 0 1 2 (mkProcResult "" "" None) (mkProcResult "" "" None)
           eq_refl eq_refl eq_refl).
  repeat split.
Defined.

Lemma crioCopyToContainer_closes_file_witness :
  closed_files
    (trace (crioCopyToContainer
              (Platform0:=double.platform
                 (double.running [mkProcResult "" double.cat_denied None]))
              context.Background 7 "/tmp/agent.tar.gz" "/opt" "agent" false
              double.start_state).2)
  = [tt].
Proof.
  apply (crioCopyToContainer_closes_file
           (Platform0:=double.platform (double.running [mkProcResult "" double.cat_denied None]))
           context.Background 7 "/tmp/agent.tar.gz" "/opt" "agent" false double.start_state
           tt 0 eq_refl).
Defined.

(** ** Further properties of crio.go: resolving the pid *)

Section pid_properties.

Context {W Conn File float64 : Type} `{!Platform W Conn File float64}.
Implicit Types st : St (W:=W) (Conn:=Conn) (File:=File).
Implicit Types c : CRIClient (W:=W) (Conn:=Conn).

Lemma GetPidById_trace c (ctx : context.Context) (containerId : string) st :
  trace (GetPidById c ctx containerId st).2
  = trace st ++ [EvRPC (rpc.ContainerStatus ctx (v1.ContainerStatusRequest.mk containerId true))].
Proof.
  unfold GetPidById. step.
  destruct (RuntimeServiceClient.ContainerStatus _ _ _ _) as [[[r |] [e |]] w]; step;
    try reflexivity.
  destruct (v1.ContainerStatusResponse.Info r); [| reflexivity].
  destruct (json_Unmarshal _) as [e | dataMap]; [reflexivity |].
  destruct (go_lookup dataMap "pid") as [[] |]; reflexivity.
Qed.

(** X9. On every path, a panic included, [GetPidById] makes exactly one
    call on the runtime, a verbose status request for the given
    identifier, and runs no helper. *)
Theorem GetPidById_single_status_call c (ctx : context.Context) (containerId : string) st :
  rpc_calls (trace (GetPidById c ctx containerId st).2)
  = rpc_calls (trace st)
    ++ [rpc.ContainerStatus ctx (v1.ContainerStatusRequest.mk containerId true)]
  ∧ helper_runs (trace (GetPidById c ctx containerId st).2) = helper_runs (trace st).
Proof. rewrite GetPidById_trace. split; traces; done. Qed.

(** X10. Whenever [GetPidById] returns, it returns either a pid converted
    from a JSON number, no error and the [OK] code, or the pid -1 with an
    error and the [ContainerExecFailed] code. *)
Theorem GetPidById_result_or_error c (ctx : context.Context) (containerId : string) st
    (pid : Z) (err : option error) (code : CodeType) st' :
  GetPidById c ctx containerId st = (Returned (pid, err, code), st') →
  (err = None ∧ code = OK ∧ ∃ f, pid = int32_of_float64 f)
  ∨ (is_Some err ∧ pid = (-1)%Z ∧ code = ContainerExecFailed).
Proof.
  unfold GetPidById. step.
  destruct (RuntimeServiceClient.ContainerStatus _ _ _ _) as [[[r |] [e |]] w]; step;
    try (intros [= <- <- <- _]; right; eauto).
  destruct (v1.ContainerStatusResponse.Info r);
    [| intros [= <- <- <- _]; right; eauto].
  destruct (json_Unmarshal _) as [e | dataMap];
    [intros [= <- <- <- _]; right; eauto |].
  destruct (go_lookup dataMap "pid") as [[| b | f | s | l | m] |]; try discriminate.
  intros [= <- <- <- _]. left. eauto.
Qed.

(** X11. [GetPidById] returns -1 with an error and [ContainerExecFailed],
    and does not panic, when the status call errors, when the response or
    its info map is nil, and when the ["info"] entry does not decode; an
    info map without the ["info"] key has the empty string decoded. *)
Theorem GetPidById_lookup_failures c (ctx : context.Context) (containerId : string) st
    (response : option v1.ContainerStatusResponse.t) (err : option error) (w' : W) :
  RuntimeServiceClient.ContainerStatus (runtimeService c) ctx
    (v1.ContainerStatusRequest.mk containerId true) (world st) = ((response, err), w') →
  (∀ e, err = Some e →
        (GetPidById c ctx containerId st).1
        = Returned ((-1)%Z,
                    Some (errorString ("failed to get container status and info for container "
                                       +:+ containerId +:+ ": " +:+ Error e)),
                    ContainerExecFailed))
  ∧ (err = None →
     response = None ∨ (∃ r, response = Some r ∧ v1.ContainerStatusResponse.Info r = None) →
     (GetPidById c ctx containerId st).1
     = Returned ((-1)%Z,
                 Some (errorString ("container info is nil for container " +:+ containerId)),
                 ContainerExecFailed))
  ∧ (∀ r info e, err = None → response = Some r →
                 v1.ContainerStatusResponse.Info r = Some info →
                 json_Unmarshal (default "" (info !! "info")) = inl e →
                 (GetPidById c ctx containerId st).1
                 = Returned ((-1)%Z,
                             Some (errorString
                                     ("json.Unmarshal container info error for container "
                                      +:+ containerId +:+ "," +:+ Error e)),
                             ContainerExecFailed)).
Proof.
  intros Hrpc. unfold GetPidById. step. rewrite Hrpc. step.
  repeat split.
  - intros e ->. reflexivity.
  - intros -> [-> | (r & -> & Hinfo)]; [reflexivity |]. rewrite Hinfo. reflexivity.
  - intros r info e -> -> Hinfo Hjson. rewrite Hinfo.
    unfold go_index, go_lookup. rewrite Hjson. reflexivity.
Qed.

End pid_properties.

Lemma GetPidById_result_or_error_witness :
  (@None error = None ∧ OK = OK ∧ ∃ f : Z, 1234%Z = f)
  ∨ (is_Some (@None error) ∧ 1234%Z = (-1)%Z ∧ OK = ContainerExecFailed).
Proof.
  eapply (GetPidById_result_or_error
           (Platform0:=double.platform
              (double.reporting
                 (v1.ContainerStatusResponse.mk None (Some {[ "info" := double.pid_number ]}))))
           (double.client
              (double.reporting
                 (v1.ContainerStatusResponse.mk None (Some {[ "info" := double.pid_number ]}))))
           context.Background "abc" double.start_state 1234 None OK).
  vm_compute. reflexivity.
Defined.

(** The info map has no ["info"] entry. *)
Lemma GetPidById_lookup_failures_witness :
  (GetPidById
     (Platform0:=double.platform
        (double.reporting (v1.ContainerStatusResponse.mk None (Some {[ "sandboxID" := "s1" ]}))))
     (double.client
        (double.reporting (v1.ContainerStatusResponse.mk None (Some {[ "sandboxID" := "s1" ]}))))
     context.Background "abc" double.start_state).1
  = Returned ((-1)%Z,
              Some (errorString ("json.Unmarshal container info error for container abc,"
                                 +:+ "unexpected end of JSON input")),
              ContainerExecFailed).
Proof.
  destruct (GetPidById_lookup_failures
              (Platform0:=double.platform
                 (double.reporting
                    (v1.ContainerStatusResponse.mk None (Some {[ "sandboxID" := "s1" ]}))))
              (double.client
                 (double.reporting
                    (v1.ContainerStatusResponse.mk None (Some {[ "sandboxID" := "s1" ]}))))
              context.Background "abc" double.start_state _ _ _ eq_refl)
    as (_ & _ & Hjson).
  apply (Hjson (v1.ContainerStatusResponse.mk None (Some {[ "sandboxID" := "s1" ]}))
               {[ "sandboxID" := "s1" ]} (errorString "unexpected end of JSON input"));
    reflexivity.
Defined.

(** ** Further properties of crio.go: exec and copy through the pid *)

Section through_pid_properties.

Context {W Conn File float64 : Type} `{!Platform W Conn File float64}.
Implicit Types st : St (W:=W) (Conn:=Conn) (File:=File).
Implicit Types c : CRIClient (W:=W) (Conn:=Conn).

(** X12. When the status call answers with an info blob that decodes to a
    numeric pid, [ExecContainer] makes that one call, then runs the helper
    once against that pid, and returns what the run gives: its error with
    empty output, or else its error stream if not empty, or else its
    standard output. *)
Theorem ExecContainer_resolves_then_runs c (ctx : context.Context)
    (containerId command : string) st (r : v1.ContainerStatusResponse.t)
    (info : gmap string string) (dataMap : option (gmap string (json.Value float64)))
    (f : float64) (w1 w2 : W) (ran : ProcResult) :
  RuntimeServiceClient.ContainerStatus (runtimeService c) ctx
    (v1.ContainerStatusRequest.mk containerId true) (world st) = ((Some r, None), w1) →
  v1.ContainerStatusResponse.Info r = Some info →
  json_Unmarshal (default "" (info !! "info")) = inr dataMap →
  go_lookup dataMap "pid" = Some (json.Number f) →
  Cmd_Run nsexec_path (exec_argv (int32_of_float64 f) command) None w1 = (ran, w2) →
  (ExecContainer c ctx containerId command st).1
  = Returned match proc_err ran with
             | Some e => ("", Some e)
             | None => (if decide (proc_stderr ran = "") then proc_stdout ran
                        else proc_stderr ran, None)
             end
  ∧ world (ExecContainer c ctx containerId command st).2 = w2
  ∧ rpc_calls (trace (ExecContainer c ctx containerId command st).2)
    = rpc_calls (trace st)
      ++ [rpc.ContainerStatus ctx (v1.ContainerStatusRequest.mk containerId true)]
  ∧ helper_runs (trace (ExecContainer c ctx containerId command st).2)
    = helper_runs (trace st)
      ++ [(nsexec_path,
           ["-t"; pretty (int32_of_float64 f); "-p"; "-m"; "-n"; "--"; "/bin/sh"; "-c"; command],
           None)].
Proof.
  intros Hrpc Hinfo Hjson Hpid Hrun. rewrite <- exec_argv_eq.
  unfold ExecContainer, GetPidById, crioExecContainer. step. rewrite Hrpc. step.
  rewrite Hinfo. unfold go_index. cbn [go_lookup]. rewrite Hjson, Hpid. step.
  unfold nsexec_path, exec_argv in *. rewrite Hrun. step_run.
  destruct ran as [out msg [e |]]; step_run; [| destruct msg; step_run];
    repeat split; traces; done.
Qed.

(** X13. When [GetPidById] returns an error, [ExecContainer] returns it
    with empty output and [CopyToContainer] returns it, and neither goes
    further: the status call is all that happened, no helper is run and no
    file is opened. *)
Theorem pid_failure_stops_exec_and_copy c (ctx : context.Context)
    (containerId command srcFile dstPath extractDirName : string) (override : bool) st
    (pid : Z) (e : error) (code : CodeType) st1 :
  GetPidById c ctx containerId st = (Returned (pid, Some e, code), st1) →
  ExecContainer c ctx containerId command st = (Returned ("", Some e), st1)
  ∧ CopyToContainer c ctx containerId srcFile dstPath extractDirName override st
    = (Returned (Some e), st1)
  ∧ trace st1
    = trace st
      ++ [EvRPC (rpc.ContainerStatus ctx (v1.ContainerStatusRequest.mk containerId true))].
Proof.
  intros Hpid. pose proof (GetPidById_trace c ctx containerId st) as Htrace.
  unfold ExecContainer, CopyToContainer. step. rewrite Hpid in *. done.
Qed.

(** X14. When [GetPidById] returns a pid, [ExecContainer] runs the helper
    against that pid and [CopyToContainer] against its conversion to
    [uint32]; the two are the same process exactly when the pid is not
    negative. *)
Theorem CopyToContainer_pid_conversion c (ctx : context.Context)
    (containerId command srcFile dstPath extractDirName : string) (override : bool) st
    (pid : Z) (code : CodeType) st1 :
  GetPidById c ctx containerId st = (Returned (pid, None, code), st1) →
  (- 2 ^ 31 ≤ pid < 2 ^ 31)%Z →
  ExecContainer c ctx containerId command st = crioExecContainer ctx pid command st1
  ∧ CopyToContainer c ctx containerId srcFile dstPath extractDirName override st
    = crioCopyToContainer ctx (uint32_of_int32 pid) srcFile dstPath extractDirName override st1
  ∧ (uint32_of_int32 pid = pid ↔ (0 ≤ pid)%Z)
  ∧ ((pid < 0)%Z → uint32_of_int32 pid = (pid + 2 ^ 32)%Z).
Proof.
  intros Hpid Hrange. unfold ExecContainer, CopyToContainer. step. rewrite Hpid.
  unfold uint32_of_int32. repeat split.
  - intros Heq. rewrite <- Heq. apply Z.mod_pos_bound. lia.
  - intros Hpos. apply Z.mod_small. lia.
  - intros Hneg. symmetry. apply Z.mod_unique_pos with (q := (-1)%Z); lia.
Qed.

End through_pid_properties.

Lemma ExecContainer_resolves_then_runs_witness :
  (ExecContainer (Platform0:=double.platform (double.resolving [mkProcResult "up" "" None]))
                 (double.client (double.resolving [mkProcResult "up" "" None]))
                 context.Background "abc" "uptime" double.start_state).1
  = Returned ("up", None).
Proof.
  apply (ExecContainer_resolves_then_runs
           (Platform0:=double.platform (double.resolving [mkProcResult "up" "" None]))
           (double.client (double.resolving [mkProcResult "up" "" None]))
           context.Background "abc" "uptime" double.start_state
           (v1.ContainerStatusResponse.mk None (Some {[ "info" := double.pid_number ]}))
           {[ "info" := double.pid_number ]} (Some {[ "pid" := json.Number 1234%Z ]})
           1234%Z 0 1 (mkProcResult "up" "" None));
    reflexivity.
Defined.

(** The status answers without an info map. *)
Lemma pid_failure_stops_exec_and_copy_witness :
  (ExecContainer (Platform0:=double.platform
                    (double.reporting (v1.ContainerStatusResponse.mk None None)))
                 (double.client (double.reporting (v1.ContainerStatusResponse.mk None None)))
                 context.Background "abc" "uptime" double.start_state).1
  = Returned ("", Some (errorString "container info is nil for container abc")).
Proof.
  destruct (pid_failure_stops_exec_and_copy
              (Platform0:=double.platform
                 (double.reporting (v1.ContainerStatusResponse.mk None None)))
              (double.client (double.reporting (v1.ContainerStatusResponse.mk None None)))
              context.Background "abc" "uptime" "" "" "" false double.start_state
              (-1) (errorString "container info is nil for container abc")
              ContainerExecFailed
              {| world := 0;
                 trace := [EvRPC (rpc.ContainerStatus context.Background
                                    (v1.ContainerStatusRequest.mk "abc" true))];
                 fired := ∅; next_handle := 1 |} eq_refl) as (Hexec & _ & _).
  rewrite Hexec. reflexivity.
Defined.

Lemma CopyToContainer_pid_conversion_witness :
  CopyToContainer (Platform0:=double.platform (double.resolving []))
                  (double.client (double.resolving []))
                  context.Background "abc" "agent.tar.gz" "/opt" "agent" false
                  double.start_state
  = crioCopyToContainer (Platform0:=double.platform (double.resolving []))
                        context.Background 1234 "agent.tar.gz" "/opt" "agent" false
                        {| world := 0;
                           trace := [EvRPC (rpc.ContainerStatus context.Background
                                              (v1.ContainerStatusRequest.mk "abc" true))];
                           fired := ∅; next_handle := 1 |}.
Proof.
  eapply (CopyToContainer_pid_conversion
            (Platform0:=double.platform (double.resolving []))
            (double.client (double.resolving []))
            context.Background "abc" "" "agent.tar.gz" "/opt" "agent" false
            double.start_state 1234 OK).
  - vm_compute. reflexivity.
  - lia.
Defined.

(** ** Further properties of crio.go: looking containers up *)

(** A nil entry anywhere in the listing ends the filtering loop in a
    panic: the loop visits every entry, also after a match. *)
Lemma filter_by_labels_nil_entry (cs : list (option v1.Container.t))
    (S : option (gmap string string)) (filtered : list (option v1.Container.t)) :
  None ∈ cs → filter_by_labels cs S filtered = Panicked NilDereference.
Proof.
  revert filtered. induction cs as [| [x |] cs IH]; intros filtered Hin.
  - inversion Hin.
  - apply elem_of_cons in Hin as [Hin | Hin]; [discriminate |].
    cbn [filter_by_labels]. rewrite matchLabels_matches.
    destruct (matches S x); by apply IH.
  - reflexivity.
Qed.

Lemma find_by_name_none (cs : list v1.Container.t) (name : string) :
  (∀ x, x ∈ cs → ¬ named name x) → find_by_name (Some <$> cs) name = Returned "".
Proof.
  induction cs as [| x cs IH]; intros Hnone; [reflexivity |].
  cbn [fmap list_fmap find_by_name].
  destruct (String.eqb_spec (go_index (v1.Container.Labels x) "io.kubernetes.container.name")
                            name) as [Hx | _].
  - destruct (Hnone x (list_elem_of_here _ _) Hx).
  - apply IH. intros y Hy. apply Hnone. by apply list_elem_of_further.
Qed.

(** The scan stops at the first container that carries the name; what
    follows it in the listing is not looked at. *)
Lemma find_by_name_first (pre : list v1.Container.t) (x : v1.Container.t)
    (post : list (option v1.Container.t)) (name : string) :
  (∀ y, y ∈ pre → ¬ named name y) → named name x →
  find_by_name ((Some <$> pre) ++ Some x :: post) name = Returned (v1.Container.Id x).
Proof.
  intros Hpre Hx. induction pre as [| y pre IH]; cbn [fmap list_fmap app find_by_name].
  - unfold named in Hx. rewrite Hx, String.eqb_refl. reflexivity.
  - destruct (String.eqb_spec (go_index (v1.Container.Labels y) "io.kubernetes.container.name")
                              name) as [Hy | _].
    + destruct (Hpre y (list_elem_of_here _ _) Hy).
    + apply IH. intros z Hz. apply Hpre. by apply list_elem_of_further.
Qed.

Section lookup_properties.

Context {W Conn File : Type}.
Implicit Types st : St (W:=W) (Conn:=Conn) (File:=File).
Implicit Types c : CRIClient (W:=W) (Conn:=Conn).

(** X15. Whenever one of the three container lookups returns, its answer
    is a result with no error and the [OK] code, or the zero
    [ContainerInfo] with an error and the [ContainerExecFailed] code;
    never a filled result beside an error, never nothing beside no error. *)
Theorem lookups_result_or_error c (ctx : context.Context) (containerId containerName : string)
    (S : option (gmap string string)) st :
  (∀ r st', GetContainerById c ctx containerId st = (Returned r, st') → result_or_error r)
  ∧ (∀ r st', GetContainerByName c ctx containerName st = (Returned r, st') →
              result_or_error r)
  ∧ (∀ r st', GetContainerByLabelSelector c S st = (Returned r, st') → result_or_error r).
Proof.
  assert (Hfail : ∀ e, result_or_error (container.zero, Some e, ContainerExecFailed)).
  { intros e. right. eauto. }
  assert (Hok : ∀ info, result_or_error (info, None, OK)).
  { intros info. left. eauto. }
  split; [| split]; intros r st'.
  - unfold GetContainerById. step.
    destruct (RuntimeServiceClient.ContainerStatus _ _ _ _) as [[[resp |] [e |]] w]; step;
      try (intros [= <- _]; apply Hfail).
    destruct (v1.ContainerStatusResponse.Status resp) as [s |]; step;
      [| intros [= <- _]; apply Hfail].
    destruct (convertContainerInfo (Some s)); step; [| discriminate].
    intros [= <- _]. apply Hok.
  - unfold GetContainerByName. step.
    destruct (RuntimeServiceClient.ListContainers _ _ _ _) as [[[resp |] [e |]] w]; step;
      try (intros [= <- _]; apply Hfail); try discriminate.
    destruct (find_by_name _ _) as [containerID |]; step; [| discriminate].
    destruct (String.eqb containerID ""); step; [intros [= <- _]; apply Hfail |].
    destruct (RuntimeServiceClient.ContainerStatus _ _ _ _) as [[[sresp |] [e |]] w2]; step;
      try (intros [= <- _]; apply Hfail).
    destruct (v1.ContainerStatusResponse.Status sresp) as [s |]; step;
      [| intros [= <- _]; apply Hfail].
    destruct (convertContainerInfo (Some s)); step; [| discriminate].
    intros [= <- _]. apply Hok.
  - unfold GetContainerByLabelSelector. step.
    destruct (RuntimeServiceClient.ListContainers _ _ _ _) as [[[resp |] [e |]] w]; step;
      try (intros [= <- _]; apply Hfail); try discriminate.
    destruct (filter_by_labels _ _ _) as [[| first rest] |]; step;
      [intros [= <- _]; apply Hfail | | discriminate].
    destruct (convertContainerInfo2 first); step; [| discriminate].
    intros [= <- _]. apply Hok.
Qed.

(** X16. On every path, a panic included, [GetContainerByLabelSelector]
    makes exactly one call on the runtime: an unfiltered list request
    under the client's own context. It never asks for a status; what it
    returns comes from the listing. *)
Theorem GetContainerByLabelSelector_single_list_call c (S : option (gmap string string)) st :
  trace (GetContainerByLabelSelector c S st).2
  = trace st ++ [EvRPC (rpc.ListContainers (Ctx c) (v1.ListContainersRequest.mk None))].
Proof.
  unfold GetContainerByLabelSelector. step.
  destruct (RuntimeServiceClient.ListContainers _ _ _ _) as [[[resp |] [e |]] w]; step;
    try reflexivity.
  destruct (filter_by_labels _ _ _) as [[| first rest] |]; step; try reflexivity.
  destruct (convertContainerInfo2 first); reflexivity.
Qed.

(** X17. A nil entry anywhere in a listing makes
    [GetContainerByLabelSelector] panic, whatever the selector and even
    when a container before it matches. *)
Theorem GetContainerByLabelSelector_nil_entry_panics c (S : option (gmap string string)) st
    (resp : v1.ListContainersResponse.t) (w' : W) :
  RuntimeServiceClient.ListContainers (runtimeService c) (Ctx c)
    (v1.ListContainersRequest.mk None) (world st) = ((Some resp, None), w') →
  None ∈ v1.ListContainersResponse.Containers resp →
  (GetContainerByLabelSelector c S st).1 = Panicked NilDereference.
Proof.
  intros Hrpc Hnil. unfold GetContainerByLabelSelector. step. rewrite Hrpc. step.
  rewrite filter_by_labels_nil_entry by exact Hnil. reflexivity.
Qed.

(** X18. When no listed container carries the name, [GetContainerByName]
    fails with [ContainerExecFailed] and a message that names the name,
    after the list call alone: no status is asked for. *)
Theorem GetContainerByName_not_found c (ctx : context.Context) (containerName : string) st
    (resp : v1.ListContainersResponse.t) (cs : list v1.Container.t) (w' : W) :
  RuntimeServiceClient.ListContainers (runtimeService c) ctx
    (v1.ListContainersRequest.mk (Some v1.ContainerFilter.mk)) (world st)
  = ((Some resp, None), w') →
  v1.ListContainersResponse.Containers resp = Some <$> cs →
  (∀ x, x ∈ cs → ¬ named containerName x) →
  GetContainerByName c ctx containerName st
  = (Returned (container.zero,
               Some (errorString ("container with name " +:+ containerName +:+ " not found")),
               ContainerExecFailed),
     {| world := w';
        trace := trace st
                 ++ [EvRPC (rpc.ListContainers ctx
                              (v1.ListContainersRequest.mk (Some v1.ContainerFilter.mk)))];
        fired := fired st; next_handle := next_handle st |}).
Proof.
  intros Hrpc Hcs Hnone. unfold GetContainerByName. step. rewrite Hrpc. step.
  rewrite Hcs, find_by_name_none by exact Hnone. reflexivity.
Qed.

(** X19. [GetContainerByName] takes the first listed container that
    carries the name, whatever follows it in the listing, asks for its
    status by identifier with a request that is not verbose, and returns
    the projection of that status. *)
Theorem GetContainerByName_first_named c (ctx : context.Context) (containerName : string) st
    (resp : v1.ListContainersResponse.t) (pre : list v1.Container.t) (x : v1.Container.t)
    (post : list (option v1.Container.t)) (w' w'' : W)
    (r : v1.ContainerStatusResponse.t) (s : v1.ContainerStatus.t)
    (m : v1.ContainerMetadata.t) :
  RuntimeServiceClient.ListContainers (runtimeService c) ctx
    (v1.ListContainersRequest.mk (Some v1.ContainerFilter.mk)) (world st)
  = ((Some resp, None), w') →
  v1.ListContainersResponse.Containers resp = (Some <$> pre) ++ Some x :: post →
  (∀ y, y ∈ pre → ¬ named containerName y) →
  named containerName x →
  v1.Container.Id x ≠ "" →
  RuntimeServiceClient.ContainerStatus (runtimeService c) ctx
    (v1.ContainerStatusRequest.mk (v1.Container.Id x) false) w' = ((Some r, None), w'') →
  v1.ContainerStatusResponse.Status r = Some s →
  v1.ContainerStatus.Metadata s = Some m →
  GetContainerByName c ctx containerName st
  = (Returned ({| container.ContainerId := v1.ContainerStatus.Id s;
                  container.ContainerName := v1.ContainerMetadata.Name m;
                  container.Labels := v1.ContainerStatus.Labels s;
                  container.Spec := None |}, None, OK),
     {| world := w'';
        trace := trace st
                 ++ [EvRPC (rpc.ListContainers ctx
                              (v1.ListContainersRequest.mk (Some v1.ContainerFilter.mk)));
                     EvRPC (rpc.ContainerStatus ctx
                              (v1.ContainerStatusRequest.mk (v1.Container.Id x) false))];
        fired := fired st; next_handle := next_handle st |}).
Proof.
  intros Hlist Hcs Hpre Hx Hid Hstatus Hs Hm.
  unfold GetContainerByName. step. rewrite Hlist. step.
  rewrite Hcs, find_by_name_first by assumption. step.
  apply String.eqb_neq in Hid. rewrite Hid. step. rewrite Hstatus. step.
  rewrite Hs. unfold convertContainerInfo. rewrite Hm. step.
  by rewrite <- app_assoc.
Qed.

End lookup_properties.

Lemma lookups_result_or_error_witness :
  result_or_error (container.zero, Some (errorString "no containers found: <nil>"),
                   ContainerExecFailed).
Proof.
  destruct (lookups_result_or_error (File:=unit) (double.client (double.listing []))
              context.Background "abc" "nginx" (Some {[ "app" := "web" ]})
              double.start_state) as (_ & _ & Hsel).
  eapply Hsel. vm_compute. reflexivity.
Defined.

(** A nil entry behind a web server. *)
Lemma GetContainerByLabelSelector_nil_entry_panics_witness :
  (GetContainerByLabelSelector
     (double.client (double.listing [Some double.web1; None]))
     (Some {[ "app" := "web" ]}) (File:=unit) double.start_state).1
  = Panicked NilDereference.
Proof.
  apply (GetContainerByLabelSelector_nil_entry_panics
           (double.client (double.listing [Some double.web1; None]))
           (Some {[ "app" := "web" ]}) (File:=unit) double.start_state
           (v1.ListContainersResponse.mk [Some double.web1; None]) 0 eq_refl).
  apply list_elem_of_further, list_elem_of_here.
Defined.

Lemma GetContainerByName_not_found_witness :
  (GetContainerByName
     (double.client (double.listing [Some double.db; Some double.unlabelled]))
     context.Background "nginx" (File:=unit) double.start_state).1
  = Returned (container.zero, Some (errorString "container with name nginx not found"),
              ContainerExecFailed).
Proof.
  rewrite (GetContainerByName_not_found
             (double.client (double.listing [Some double.db; Some double.unlabelled]))
             context.Background "nginx" (File:=unit) double.start_state
             (v1.ListContainersResponse.mk [Some double.db; Some double.unlabelled])
             [double.db; double.unlabelled] 0 eq_refl eq_refl).
  - reflexivity.
  - intros x Hx.
    apply elem_of_cons in Hx as [-> | Hx]; [vm_compute; discriminate |].
    apply elem_of_cons in Hx as [-> | Hx]; [vm_compute; discriminate |].
    inversion Hx.
Defined.

(** The named container stands behind a database and before a nil entry. *)
Lemma GetContainerByName_first_named_witness :
  (GetContainerByName
     (double.client
        (double.listing_and_reporting
           [Some double.db; Some double.listed_nginx; None]
           (v1.ContainerStatusResponse.mk (Some double.nginx) None)))
     context.Background "nginx" (File:=unit) double.start_state).1
  = Returned ({| container.ContainerId := "abc"; container.ContainerName := "nginx";
                 container.Labels := Some {[ "app" := "web" ]};
                 container.Spec := None |}, None, OK).
Proof.
  rewrite (GetContainerByName_first_named
             (double.client
                (double.listing_and_reporting
                   [Some double.db; Some double.listed_nginx; None]
                   (v1.ContainerStatusResponse.mk (Some double.nginx) None)))
             context.Background "nginx" (File:=unit) double.start_state
             (v1.ListContainersResponse.mk [Some double.db; Some double.listed_nginx; None])
             [double.db] double.listed_nginx [None] 0 0
             (v1.ContainerStatusResponse.mk (Some double.nginx) None) double.nginx
             (v1.ContainerMetadata.mk "nginx") eq_refl eq_refl).
  - reflexivity.
  - intros y Hy. apply elem_of_cons in Hy as [-> | Hy]; [vm_compute; discriminate |].
    inversion Hy.
  - reflexivity.
  - vm_compute. discriminate.
  - reflexivity.
  - reflexivity.
  - reflexivity.
Defined.

(** The empty name is carried by every container without the name label:
    looking it up takes the first of them. *)
Example GetContainerByName_empty_name :
  rpc_calls
    (trace (GetContainerByName
              (double.client
                 (double.listing_and_reporting
                    [Some double.listed_nginx; Some double.unlabelled]
                    (v1.ContainerStatusResponse.mk (Some double.anonymous) None)))
              context.Background "" (File:=unit) double.start_state).2)
  = [rpc.ListContainers context.Background
       (v1.ListContainersRequest.mk (Some v1.ContainerFilter.mk));
     rpc.ContainerStatus context.Background (v1.ContainerStatusRequest.mk "c1" false)].
Proof. vm_compute. reflexivity. Qed.

(** ** Further properties of crio.go: creating a container *)

Section CreateContainer_properties.

Context {W Conn File : Type}.
Implicit Types st : St (W:=W) (Conn:=Conn) (File:=File).
Implicit Types c : CRIClient (W:=W) (Conn:=Conn).

(** X20. [CreateContainer] asks for the image's status and pulls the
    image whatever the status call answered, an error included. When the
    pull fails it returns the empty identifier with an error that names
    the image, and the create call is never made. *)
Theorem CreateContainer_pull_failure c (ctx : context.Context) (containerName : string)
    (cfg : containertype.Config.t) (hostConfig : option containertype.HostConfig.t)
    (networkConfig : option network.NetworkingConfig) st
    (checked : option v1.ImageStatusResponse.t * option error) (w1 w2 : W)
    (pulled : option v1.PullImageResponse.t) (e : error) :
  ImageServiceClient.ImageStatus (imageService c) ctx
    (v1.ImageStatusRequest.mk (image_of cfg)) (world st) = (checked, w1) →
  ImageServiceClient.PullImage (imageService c) ctx
    (v1.PullImageRequest.mk (image_of cfg)) w1 = ((pulled, Some e), w2) →
  CreateContainer c ctx containerName (Some cfg) hostConfig networkConfig st
  = (Returned ("", Some (errorString ("failed to pull image " +:+ containertype.Config.Image cfg
                                      +:+ ": " +:+ Error e))),
     {| world := w2;
        trace := trace st
                 ++ [EvRPC (rpc.ImageStatus ctx (v1.ImageStatusRequest.mk (image_of cfg)));
                     EvRPC (rpc.PullImage ctx (v1.PullImageRequest.mk (image_of cfg)))];
        fired := fired st; next_handle := next_handle st |}).
Proof.
  intros Hcheck Hpull. unfold CreateContainer, image_of in *. step.
  rewrite Hcheck. destruct checked as [checked cerr]. step. rewrite Hpull. step.
  by rewrite <- app_assoc.
Qed.

(** X21. Once the image is pulled, [CreateContainer] sends one create
    request that carries the container name as metadata, the image, the
    configuration's [Cmd] as command and its [Entrypoint] as arguments,
    its labels and working directory, and the host configuration's memory
    limit. It returns the identifier of the response, or the empty
    identifier with an error when the call fails; a nil response without
    error makes it panic. *)
Theorem CreateContainer_request c (ctx : context.Context) (containerName : string)
    (cfg : containertype.Config.t) (host : containertype.HostConfig.t)
    (networkConfig : option network.NetworkingConfig) st
    (checked : option v1.ImageStatusResponse.t * option error) (w1 w2 w3 : W)
    (pulled : option v1.PullImageResponse.t)
    (created : option v1.CreateContainerResponse.t) (err : option error) :
  ImageServiceClient.ImageStatus (imageService c) ctx
    (v1.ImageStatusRequest.mk (image_of cfg)) (world st) = (checked, w1) →
  ImageServiceClient.PullImage (imageService c) ctx
    (v1.PullImageRequest.mk (image_of cfg)) w1 = ((pulled, None), w2) →
  RuntimeServiceClient.CreateContainer (runtimeService c) ctx
    (create_request containerName cfg host) w2 = ((created, err), w3) →
  rpc_calls (trace (CreateContainer c ctx containerName (Some cfg) (Some host)
                                    networkConfig st).2)
  = rpc_calls (trace st)
    ++ [rpc.ImageStatus ctx (v1.ImageStatusRequest.mk (image_of cfg));
        rpc.PullImage ctx (v1.PullImageRequest.mk (image_of cfg));
        rpc.CreateContainer ctx (create_request containerName cfg host)]
  ∧ (CreateContainer c ctx containerName (Some cfg) (Some host) networkConfig st).1
    = match err, created with
      | Some e, _ =>
          Returned ("", Some (errorString ("failed to create container: " +:+ Error e)))
      | None, Some r => Returned (v1.CreateContainerResponse.ContainerId r, None)
      | None, None => Panicked NilDereference
      end.
Proof.
  intros Hcheck Hpull Hcreate. unfold CreateContainer, create_request, image_of in *. step.
  rewrite Hcheck. destruct checked as [checked cerr]. step. rewrite Hpull. step.
  rewrite Hcreate. step.
  destruct err as [e |]; [| destruct created as [r |]]; step; split; traces;
    rewrite <- ?app_assoc; done.
Qed.

End CreateContainer_properties.

(** The registry cannot be reached. *)
Lemma CreateContainer_pull_failure_witness :
  (CreateContainer (double.client double.no_registry) context.Background "probe"
                   (Some double.busybox) None None (File:=unit) double.start_state).1
  = Returned ("", Some (errorString "failed to pull image busybox: registry unreachable")).
Proof.
  rewrite (CreateContainer_pull_failure (double.client double.no_registry) context.Background
             "probe" double.busybox None None (File:=unit) double.start_state
             (Some v1.ImageStatusResponse.mk, None) 0 0
             (Some (v1.PullImageResponse.mk "ref")) (errorString "registry unreachable")
             eq_refl eq_refl).
  reflexivity.
Defined.

Lemma CreateContainer_request_witness :
  (CreateContainer (double.client double.exit_one) context.Background "probe"
                   (Some double.busybox) (Some double.unlimited) None (File:=unit)
                   double.start_state).1
  = Returned ("c0", None).
Proof.
  apply (CreateContainer_request (double.client double.exit_one) context.Background
           "probe" double.busybox double.unlimited None (File:=unit) double.start_state
           (Some v1.ImageStatusResponse.mk, None) 0 0 0
           (Some (v1.PullImageResponse.mk "ref"))
           (Some (v1.CreateContainerResponse.mk "c0")) None eq_refl eq_refl eq_refl).
Defined.

(** ** Further properties of crio.go: the ephemeral container *)

Section orchestration_properties.

Context {W Conn File float64 : Type} `{!Platform W Conn File float64}.
Implicit Types st : St (W:=W) (Conn:=Conn) (File:=File).
Implicit Types c : CRIClient (W:=W) (Conn:=Conn).

Lemma effective_cmd_default (cfg : containertype.Config.t) (command : string) :
  containertype.Config.Cmd
    match containertype.Config.Cmd cfg with
    | None =>
        {| containertype.Config.Image := containertype.Config.Image cfg;
           containertype.Config.Cmd := Some [command];
           containertype.Config.Entrypoint := containertype.Config.Entrypoint cfg;
           containertype.Config.Labels := containertype.Config.Labels cfg;
           containertype.Config.WorkingDir := containertype.Config.WorkingDir cfg |}
    | Some _ => cfg
    end = effective_cmd cfg command.
Proof.
  unfold effective_cmd. destruct (containertype.Config.Cmd cfg) eqn:E; [exact E | reflexivity].
Qed.

(** X22. When the container is created and started, the command exits
    with 0 and stop and remove succeed, [ExecuteAndRemove] returns the
    created identifier, the text of the exec response, no error and [OK],
    whatever the [removed] flag says; after the exec-sync call it sends a
    stop request with timeout 10 and a remove request, and nothing else.
    The configuration the caller passed comes back with its command set
    to the one that was run, and otherwise unchanged. *)
Theorem ExecuteAndRemove_success c (ctx : context.Context)
    (cfg : containertype.Config.t) (hostConfig : option containertype.HostConfig.t)
    (networkConfig : option network.NetworkingConfig) (containerName : string)
    (removed : bool) (timeout : Z) (command : string) (containerInfo : container.ContainerInfo)
    st (containerId : string) st1 (started : option v1.StartContainerResponse.t)
    (w2 w3 w4 w5 : W) (resp : v1.ExecSyncResponse.t)
    (stopped : option v1.StopContainerResponse.t)
    (gone : option v1.RemoveContainerResponse.t) :
  CreateContainer c ctx containerName (Some cfg) hostConfig networkConfig st
  = (Returned (containerId, None), st1) →
  RuntimeServiceClient.StartContainer (runtimeService c) ctx
    (v1.StartContainerRequest.mk containerId) (world st1) = ((started, None), w2) →
  RuntimeServiceClient.ExecSync (runtimeService c) ctx
    (exec_request containerId cfg command timeout) w2 = ((Some resp, None), w3) →
  v1.ExecSyncResponse.ExitCode resp = 0%Z →
  RuntimeServiceClient.StopContainer (runtimeService c) ctx
    (v1.StopContainerRequest.mk containerId 10) w3 = ((stopped, None), w4) →
  RuntimeServiceClient.RemoveContainer (runtimeService c) ctx
    (v1.RemoveContainerRequest.mk containerId) w4 = ((gone, None), w5) →
  ∃ cfg',
    ExecuteAndRemove c ctx (Some cfg) hostConfig networkConfig containerName removed timeout
                     command containerInfo st
    = (Returned (containerId, ExecSyncResponse_String resp, None, OK, Some cfg'),
       {| world := w5;
          trace := trace st1
                   ++ [EvRPC (rpc.StartContainer ctx (v1.StartContainerRequest.mk containerId));
                       EvRPC (rpc.ExecSync ctx (exec_request containerId cfg command timeout));
                       EvRPC (rpc.StopContainer ctx (v1.StopContainerRequest.mk containerId 10));
                       EvRPC (rpc.RemoveContainer ctx
                                (v1.RemoveContainerRequest.mk containerId))];
          fired := fired st1; next_handle := next_handle st1 |})
    ∧ containertype.Config.Cmd cfg' = effective_cmd cfg command
    ∧ containertype.Config.Image cfg' = containertype.Config.Image cfg
    ∧ containertype.Config.Entrypoint cfg' = containertype.Config.Entrypoint cfg
    ∧ containertype.Config.Labels cfg' = containertype.Config.Labels cfg
    ∧ containertype.Config.WorkingDir cfg' = containertype.Config.WorkingDir cfg.
Proof.
  intros Hcreate Hstart Hexec Hcode Hstop Hremove. unfold exec_request in *.
  unfold ExecuteAndRemove. step. rewrite Hcreate. step. rewrite Hstart. step.
  rewrite effective_cmd_default, Hexec. step. rewrite Hcode. change (negb (0 =? 0)%Z) with false. step.
  rewrite Hstop. step. rewrite Hremove. step.
  eexists. split; [by rewrite <- !app_assoc |].
  split; [apply effective_cmd_default |].
  destruct (containertype.Config.Cmd cfg); repeat split.
Qed.

(** X23. When the exec-sync call itself fails, [ExecuteAndRemove] returns
    the created identifier with the [CreateContainerFailed] code and an
    error whose text has the call's error where the container was meant
    to be named and a missing-operand mark after it; the container is
    neither stopped nor removed. *)
Theorem ExecuteAndRemove_exec_call_failure c (ctx : context.Context)
    (cfg : containertype.Config.t) (hostConfig : option containertype.HostConfig.t)
    (networkConfig : option network.NetworkingConfig) (containerName : string)
    (removed : bool) (timeout : Z) (command : string) (containerInfo : container.ContainerInfo)
    st (containerId : string) st1 (started : option v1.StartContainerResponse.t)
    (w2 w3 : W) (resp : option v1.ExecSyncResponse.t) (e : error) :
  CreateContainer c ctx containerName (Some cfg) hostConfig networkConfig st
  = (Returned (containerId, None), st1) →
  RuntimeServiceClient.StartContainer (runtimeService c) ctx
    (v1.StartContainerRequest.mk containerId) (world st1) = ((started, None), w2) →
  RuntimeServiceClient.ExecSync (runtimeService c) ctx
    (exec_request containerId cfg command timeout) w2 = ((resp, Some e), w3) →
  ∃ config',
    ExecuteAndRemove c ctx (Some cfg) hostConfig networkConfig containerName removed timeout
                     command containerInfo st
    = (Returned (containerId, "",
                 Some (errorString ("failed to execute command in container " +:+ Error e
                                    +:+ ": %!v(MISSING)")),
                 CreateContainerFailed, config'),
       {| world := w3;
          trace := trace st1
                   ++ [EvRPC (rpc.StartContainer ctx (v1.StartContainerRequest.mk containerId));
                       EvRPC (rpc.ExecSync ctx (exec_request containerId cfg command timeout))];
          fired := fired st1; next_handle := next_handle st1 |}).
Proof.
  intros Hcreate Hstart Hexec. unfold exec_request in *.
  unfold ExecuteAndRemove. step. rewrite Hcreate. step. rewrite Hstart. step.
  rewrite effective_cmd_default, Hexec. step.
  eexists. by rewrite <- app_assoc.
Qed.

(** X24. When the command exits with 0 but the stop call fails,
    [ExecuteAndRemove] returns the created identifier, an error and
    [ContainerExecFailed], and does not try to remove the container; when
    stop succeeds and remove fails it returns the same way. In both cases
    the output of the command is dropped. *)
Theorem ExecuteAndRemove_cleanup_failure c (ctx : context.Context)
    (cfg : containertype.Config.t) (hostConfig : option containertype.HostConfig.t)
    (networkConfig : option network.NetworkingConfig) (containerName : string)
    (removed : bool) (timeout : Z) (command : string) (containerInfo : container.ContainerInfo)
    st (containerId : string) st1 (started : option v1.StartContainerResponse.t)
    (w2 w3 w4 w5 : W) (resp : v1.ExecSyncResponse.t)
    (stopped : option v1.StopContainerResponse.t) (stopErr : option error)
    (gone : option v1.RemoveContainerResponse.t) (removeErr : option error) :
  CreateContainer c ctx containerName (Some cfg) hostConfig networkConfig st
  = (Returned (containerId, None), st1) →
  RuntimeServiceClient.StartContainer (runtimeService c) ctx
    (v1.StartContainerRequest.mk containerId) (world st1) = ((started, None), w2) →
  RuntimeServiceClient.ExecSync (runtimeService c) ctx
    (exec_request containerId cfg command timeout) w2 = ((Some resp, None), w3) →
  v1.ExecSyncResponse.ExitCode resp = 0%Z →
  RuntimeServiceClient.StopContainer (runtimeService c) ctx
    (v1.StopContainerRequest.mk containerId 10) w3 = ((stopped, stopErr), w4) →
  RuntimeServiceClient.RemoveContainer (runtimeService c) ctx
    (v1.RemoveContainerRequest.mk containerId) w4 = ((gone, removeErr), w5) →
  (∀ e, stopErr = Some e →
        ∃ config' st',
          ExecuteAndRemove c ctx (Some cfg) hostConfig networkConfig containerName removed
                           timeout command containerInfo st
          = (Returned (containerId, "",
                       Some (errorString ("command in container failed : " +:+ Error e)),
                       ContainerExecFailed, config'), st')
          ∧ last (trace st')
            = Some (EvRPC (rpc.StopContainer ctx (v1.StopContainerRequest.mk containerId 10))))
  ∧ (∀ e, stopErr = None → removeErr = Some e →
          ∃ config' st',
            ExecuteAndRemove c ctx (Some cfg) hostConfig networkConfig containerName removed
                             timeout command containerInfo st
            = (Returned (containerId, "",
                         Some (errorString ("failed to remove container : " +:+ Error e)),
                         ContainerExecFailed, config'), st')).
Proof.
  intros Hcreate Hstart Hexec Hcode Hstop Hremove. unfold exec_request in *.
  unfold ExecuteAndRemove. step. rewrite Hcreate. step. rewrite Hstart. step.
  rewrite effective_cmd_default, Hexec. step. rewrite Hcode. change (negb (0 =? 0)%Z) with false. step.
  rewrite Hstop. step. split.
  - intros e ->. eexists _, _. split; [reflexivity |]. cbn [trace]. apply last_snoc.
  - intros e -> ->. step. rewrite Hremove. step. eauto.
Qed.

(** X25. Whenever [ExecuteAndRemove] returns, it returns either no error
    with the [OK] code, or an error with empty output and one of the two
    failure codes: the output of the command never comes back beside an
    error. *)
Theorem ExecuteAndRemove_result_or_error c (ctx : context.Context)
    (config : option containertype.Config.t) (hostConfig : option containertype.HostConfig.t)
    (networkConfig : option network.NetworkingConfig) (containerName : string)
    (removed : bool) (timeout : Z) (command : string) (containerInfo : container.ContainerInfo)
    st (containerId output : string) (err : option error) (code : CodeType)
    (config' : option containertype.Config.t) st' :
  ExecuteAndRemove c ctx config hostConfig networkConfig containerName removed timeout
                   command containerInfo st
  = (Returned (containerId, output, err, code, config'), st') →
  (err = None ∧ code = OK)
  ∨ (is_Some err ∧ output = "" ∧ code ≠ OK).
Proof.
  unfold ExecuteAndRemove. step.
  destruct (CreateContainer _ _ _ _ _ _ _) as [[[id [e |]] | p] st1]; step;
    [intros [= <- <- <- <- _]; right; eauto | | discriminate].
  destruct (RuntimeServiceClient.StartContainer _ _ _ _) as [[started [e |]] w2]; step;
    [intros [= <- <- <- <- _]; right; eauto |].
  destruct config as [cfg |]; step; [| discriminate].
  destruct (RuntimeServiceClient.ExecSync _ _ _ _) as [[[resp |] [e |]] w3]; step;
    try (intros [= <- <- <- <- _]; right; by eauto); try discriminate.
  destruct (negb _); step; [intros [= <- <- <- <- _]; right; eauto |].
  destruct (RuntimeServiceClient.StopContainer _ _ _ _) as [[stopped [e |]] w4]; step;
    [intros [= <- <- <- <- _]; right; eauto |].
  destruct (RuntimeServiceClient.RemoveContainer _ _ _ _) as [[gone [e |]] w5]; step;
    intros [= <- <- <- <- _]; [right | left]; eauto.
Qed.

(** X26. [ExecuteAndRemove] never looks at its [removed] flag nor at its
    [containerInfo] argument, and when the configuration brings a command
    of its own it never looks at its [command] argument either: the
    configuration's command is the one that is run. *)
Theorem ExecuteAndRemove_unused_arguments c (ctx : context.Context)
    (cfg : containertype.Config.t) (hostConfig : option containertype.HostConfig.t)
    (networkConfig : option network.NetworkingConfig) (containerName : string)
    (removed removed' : bool) (timeout : Z) (command command' : string)
    (containerInfo containerInfo' : container.ContainerInfo) st (cmd : list string) :
  containertype.Config.Cmd cfg = Some cmd →
  ExecuteAndRemove c ctx (Some cfg) hostConfig networkConfig containerName removed timeout
                   command containerInfo st
  = ExecuteAndRemove c ctx (Some cfg) hostConfig networkConfig containerName removed' timeout
                     command' containerInfo' st
  ∧ ∀ containerId,
      exec_request containerId cfg command timeout
      = v1.ExecSyncRequest.mk containerId (Some cmd) (Duration_Seconds_int64 timeout).
Proof.
  intros Hcmd. split.
  - unfold ExecuteAndRemove. step.
    destruct (CreateContainer _ _ _ _ _ _ _) as [[[id [e |]] | p] st1]; step;
      try reflexivity.
    destruct (RuntimeServiceClient.StartContainer _ _ _ _) as [[started [e |]] w2]; step;
      [reflexivity |].
    rewrite Hcmd. reflexivity.
  - intros containerId. unfold exec_request, effective_cmd. rewrite Hcmd. reflexivity.
Qed.

End orchestration_properties.

Lemma ExecuteAndRemove_success_witness :
  ∃ cfg',
    (ExecuteAndRemove (Platform0:=double.platform (double.cleaning_up None None))
                      (double.client (double.cleaning_up None None)) context.Background
                      (Some double.busybox) (Some double.unlimited) None "probe" false
                      3000000000 "true" container.zero double.start_state).1
    = Returned ("c0", "ok", None, OK, Some cfg')
    ∧ containertype.Config.Cmd cfg' = Some ["true"].
Proof.
  destruct (ExecuteAndRemove_success (Platform0:=double.platform (double.cleaning_up None None))
              (double.client (double.cleaning_up None None)) context.Background
              double.busybox (Some double.unlimited) None "probe" false 3000000000 "true"
              container.zero double.start_state "c0" _ (Some v1.StartContainerResponse.mk)
              0 0 0 0 (v1.ExecSyncResponse.mk "ok" "" 0) (Some v1.StopContainerResponse.mk)
              (Some v1.RemoveContainerResponse.mk)
              eq_refl eq_refl eq_refl eq_refl eq_refl eq_refl)
    as (cfg' & Hrun & Hcmd & _).
  exists cfg'. split; [rewrite Hrun; reflexivity | exact Hcmd].
Defined.

Lemma ExecuteAndRemove_exec_call_failure_witness :
  ∃ config',
    (ExecuteAndRemove
       (Platform0:=double.platform
          (double.orchestrating None (None, Some (errorString "context canceled"))))
       (double.client (double.orchestrating None (None, Some (errorString "context canceled"))))
       context.Background (Some double.busybox) (Some double.unlimited) None "probe" true
       3000000000 "true" container.zero double.start_state).1
    = Returned ("c0", "",
                Some (errorString ("failed to execute command in container context canceled"
                                   +:+ ": %!v(MISSING)")),
                CreateContainerFailed, config').
Proof.
  destruct (ExecuteAndRemove_exec_call_failure
              (Platform0:=double.platform
                 (double.orchestrating None (None, Some (errorString "context canceled"))))
              (double.client
                 (double.orchestrating None (None, Some (errorString "context canceled"))))
              context.Background double.busybox (Some double.unlimited) None "probe" true
              3000000000 "true" container.zero double.start_state "c0" _
              (Some v1.StartContainerResponse.mk) 0 0 None (errorString "context canceled")
              eq_refl eq_refl eq_refl)
    as (config' & Hrun).
  exists config'. rewrite Hrun. reflexivity.
Defined.

(** The runtime cannot stop the container. *)
Lemma ExecuteAndRemove_cleanup_failure_witness :
  ∃ config' st',
    ExecuteAndRemove
      (Platform0:=double.platform (double.cleaning_up (Some (errorString "timeout")) None))
      (double.client (double.cleaning_up (Some (errorString "timeout")) None))
      context.Background (Some double.busybox) (Some double.unlimited) None "probe" true
      3000000000 "true" container.zero double.start_state
    = (Returned ("c0", "", Some (errorString "command in container failed : timeout"),
                 ContainerExecFailed, config'), st')
    ∧ last (trace st')
      = Some (EvRPC (rpc.StopContainer context.Background
                                       (v1.StopContainerRequest.mk "c0" 10))).
Proof.
  destruct (ExecuteAndRemove_cleanup_failure
              (Platform0:=double.platform
                 (double.cleaning_up (Some (errorString "timeout")) None))
              (double.client (double.cleaning_up (Some (errorString "timeout")) None))
              context.Background double.busybox (Some double.unlimited) None "probe" true
              3000000000 "true" container.zero double.start_state "c0" _
              (Some v1.StartContainerResponse.mk) 0 0 0 0 (v1.ExecSyncResponse.mk "ok" "" 0)
              (Some v1.StopContainerResponse.mk) (Some (errorString "timeout"))
              (Some v1.RemoveContainerResponse.mk) None
              eq_refl eq_refl eq_refl eq_refl eq_refl eq_refl)
    as (Hstop & _).
  apply (Hstop (errorString "timeout") eq_refl).
Defined.

(** The command exits with 1. *)
Lemma ExecuteAndRemove_result_or_error_witness :
  (Some (errorString "command in container failed : <nil>") = None
   ∧ ContainerExecFailed = OK)
  ∨ (is_Some (Some (errorString "command in container failed : <nil>"))
     ∧ "" = "" ∧ ContainerExecFailed ≠ OK).
Proof.
  eapply (ExecuteAndRemove_result_or_error (Platform0:=double.platform double.exit_one)
            (double.client double.exit_one) context.Background (Some double.busybox)
            (Some double.unlimited) None "probe" true 3000000000 "false" container.zero
            double.start_state "c0" "").
  vm_compute. reflexivity.
Defined.

(** The configuration runs [sleep 1]; the [command] argument is not run. *)
Lemma ExecuteAndRemove_unused_arguments_witness :
  ExecuteAndRemove (Platform0:=double.platform (double.cleaning_up None None))
                   (double.client (double.cleaning_up None None)) context.Background
                   (Some double.sleeper) (Some double.unlimited) None "probe" true
                   3000000000 "true" container.zero double.start_state
  = ExecuteAndRemove (Platform0:=double.platform (double.cleaning_up None None))
                     (double.client (double.cleaning_up None None)) context.Background
                     (Some double.sleeper) (Some double.unlimited) None "probe" false
                     3000000000 "rm -rf /" container.zero double.start_state.
Proof.
  apply (ExecuteAndRemove_unused_arguments
           (Platform0:=double.platform (double.cleaning_up None None))
           (double.client (double.cleaning_up None None)) context.Background
           double.sleeper (Some double.unlimited) None "probe" true false 3000000000
           "true" "rm -rf /" container.zero container.zero double.start_state
           ["sleep"; "1"] eq_refl).
Defined.

(** ** Further properties of crio.go: the connection *)

Section connection_properties.

Context {W Conn File float64 : Type} `{!Platform W Conn File float64}.
Implicit Types st : St (W:=W) (Conn:=Conn) (File:=File).

(** X27. [NewClient] never panics and dials exactly once, with the
    insecure and blocking options, the default socket when the endpoint
    is empty and the namespace [k8s.io] when the namespace is empty. It
    returns a client exactly when it returns no error; the client's
    context is the one that was dialled with, has no deadline, and is not
    cancelled as long as its own cancel function, a fresh one, is not
    called. *)
Theorem NewClient_client_xor_error (endpoint namespace : string) st :
  ∃ client err,
    (NewClient endpoint namespace st).1 = Returned (client, err)
    ∧ (is_Some client ↔ err = None)
    ∧ trace (NewClient endpoint namespace st).2
      = trace st ++ [EvDial (dial_context namespace (next_handle st)) (dial_target endpoint)
                            [grpc.WithInsecure; grpc.WithBlock]]
    ∧ dial_target "" = "unix:///var/run/crio/crio.sock"
    ∧ dial_context "" (next_handle st)
      = context.WithCancel (context.WithNamespace context.Background "k8s.io")
                           (next_handle st)
    ∧ ∀ cl, client = Some cl →
            Ctx cl = dial_context namespace (next_handle st)
            ∧ Cancel cl = next_handle st
            ∧ context.Deadline (Ctx cl) = None
            ∧ ∀ (called : gset nat) (now : Z),
                next_handle st ∉ called → context.Err called now (Ctx cl) = None.
Proof.
  unfold NewClient, context_WithCancel, ctx_Err, dial_context, dial_target. step.
  destruct (grpc_DialContext _ _ _ _) as [[conn [e |]] w]; step.
  - destruct (decide _); step; eexists _, _;
      (split; [reflexivity |]); (split; [split; [intros [? [=]] | discriminate] |]);
      (split; [reflexivity |]); (split; [reflexivity |]); (split; [reflexivity |]);
      intros cl [=].
  - eexists _, _. split; [reflexivity |]. split; [split; eauto |].
    split; [reflexivity |]. split; [reflexivity |]. split; [reflexivity |].
    intros cl [= <-]. cbn [Ctx Cancel]. repeat split.
    intros called now Hfresh. cbn [context.Err].
    by rewrite decide_False.
Qed.

End connection_properties.

(** ** Further properties of crio.go: label selectors *)

(** X28. The answer of the selector loop does not depend on the order in
    which the range over the selector map yields its entries. *)
Theorem matchLabels_range_order_irrelevant (L : option (gmap string string))
    (entries entries' : list (string * string)) :
  entries ≡ₚ entries' → matchLabels_range L entries = matchLabels_range L entries'.
Proof.
  intros Hperm. apply Bool.eq_iff_eq_true. rewrite !matchLabels_range_true.
  by setoid_rewrite Hperm.
Qed.

(** X29. Matching is a subset test: a container that matches a selector
    still matches when it gains labels, and matches every selector that
    asks for less. *)
Theorem matchLabels_subset_monotone (S S' : option (gmap string string))
    (x x' : v1.Container.t) (L L' : gmap string string) :
  v1.Container.Labels x = Some L → v1.Container.Labels x' = Some L' → L ⊆ L' →
  selector_within S' S →
  matchLabels (Some x) S = Returned true → matchLabels (Some x') S' = Returned true.
Proof.
  intros HL HL' Hsub Hsel. rewrite !matchLabels_matches. intros [= Hm]. f_equal.
  apply matches_true in Hm as [_ Hin]. apply matches_true. split; [congruence |].
  intros key value Hkey. rewrite HL in Hin. rewrite HL'. cbn [go_lookup] in *.
  eapply lookup_weaken; [| exact Hsub]. apply Hin, Hsel, Hkey.
Qed.

Lemma matchLabels_range_order_irrelevant_witness :
  matchLabels_range (Some {[ "app" := "web" ]}) [("app", "web"); ("tier", "front")]
  = matchLabels_range (Some {[ "app" := "web" ]}) [("tier", "front"); ("app", "web")].
Proof.
  apply matchLabels_range_order_irrelevant.
  apply Permutation_swap.
Defined.

(** [web2] matches [app=web]; [web1] has one label more and is asked for
    nothing. *)
Lemma matchLabels_subset_monotone_witness :
  matchLabels (Some double.web1) (Some ∅) = Returned true.
Proof.
  apply (matchLabels_subset_monotone (Some {[ "app" := "web" ]}) (Some ∅)
           double.web2 double.web1 {[ "app" := "web" ]}
           {[ "app" := "web"; "tier" := "front" ]} eq_refl eq_refl).
  - apply insert_mono, map_empty_subseteq.
  - intros key value Hkey. cbn [go_lookup] in Hkey. rewrite lookup_empty in Hkey.
    discriminate.
  - reflexivity.
Defined.

(** The socket answers. *)
Lemma NewClient_client_xor_error_witness :
  ∃ cl, (NewClient (Platform0:=double.platform (double.running [])) "" ""
                   double.start_state).1 = Returned (Some cl, None)
        ∧ Ctx cl = context.WithCancel (context.WithNamespace context.Background "k8s.io") 1
        ∧ context.Err ∅ 0 (Ctx cl) = None.
Proof.
  destruct (NewClient_client_xor_error (Platform0:=double.platform (double.running []))
              "" "" double.start_state) as (client & err & Hrun & _ & _ & _ & _ & Hclient).
  vm_compute in Hrun. injection Hrun as <- <-.
  eexists. split; [reflexivity |].
  destruct (Hclient _ eq_refl) as (Hctx & _ & _ & Hlive).
  split; [exact Hctx |]. apply Hlive. vm_compute. set_solver.
Defined.
